(** * Structural encoders of [universal_min_hash.py]

    A shallow embedding of [flatten_tree] and of the class
    [SimilarityHashing] (set, sequence, tree and weighted-set encoders),
    together with the properties of the encoding layer.

    The sketch engine (datasketch's [MinHash] and
    [WeightedMinHashGenerator]) and the Python builtins [str], [int] and
    [bytes.encode] are interfaces: the development is parametric in them and
    every statement holds for whatever they compute. *)

From Stdlib Require Import ZArith List Lia.
From Stdlib.Strings Require Import Byte Ascii.
From stdpp Require Import base option list strings pretty.
Import ListNotations.
Local Open Scope Z_scope.

(** ** Python values *)

(** The values the encoders are fed with.  A [dict] keeps its items in
    insertion order, which is the order [d.items()] yields them in; a [set]
    is kept in the order its iterator yields the elements.  On the hashable
    values of this type ([None], integers, strings and tuples of such)
    Python's [==] is structural equality. *)
Unset Elimination Schemes.
Inductive pyval : Type :=
| VNone
| VInt (n : Z)
| VStr (s : string)
| VTuple (xs : list pyval)
| VList (xs : list pyval)
| VSet (xs : list pyval)
| VDict (items : list (pyval * pyval)).
Set Elimination Schemes.

Definition dict : Type := list (pyval * pyval).

Definition dict_keys (d : dict) : list pyval := map fst d.
Definition dict_values (d : dict) : list pyval := map snd d.

(** [isinstance(v, dict)] *)
Definition is_dict (v : pyval) : bool :=
  match v with VDict _ => true | _ => false end.

(** Structural induction that reaches the values stored in a [dict]. *)
Section pyval_dict_ind.
Variable P : pyval -> Prop.
Hypothesis HNone : P VNone.
Hypothesis HInt : forall n, P (VInt n).
Hypothesis HStr : forall s, P (VStr s).
Hypothesis HTuple : forall xs, P (VTuple xs).
Hypothesis HList : forall xs, P (VList xs).
Hypothesis HSet : forall xs, P (VSet xs).
Hypothesis HDict :
  forall d : dict, (forall k v, In (k, v) d -> P v) -> P (VDict d).

Fixpoint pyval_dict_ind (v : pyval) : P v :=
  match v with
  | VNone => HNone
  | VInt n => HInt n
  | VStr s => HStr s
  | VTuple xs => HTuple xs
  | VList xs => HList xs
  | VSet xs => HSet xs
  | VDict d =>
      HDict d
        ((fix values (l : dict) : forall k v, In (k, v) l -> P v :=
            match l with
            | [] => fun _ _ H => match H with end
            | (k0, v0) :: l' => fun k v H =>
                match H with
                | or_introl E =>
                    eq_ind v0 P (pyval_dict_ind v0) v (f_equal snd E)
                | or_intror H' => values l' k v H'
                end
            end) d)
  end.
End pyval_dict_ind.

(** ** [flatten_tree] *)

(** [flatten_tree(d, keys)]: the loop over [d.items()] extends [result] by
    the branches of a nested [dict], reached with the new list
    [keys + [k]], and appends the tuple [tuple(keys + [k, v])] for any other
    value.  The recursion is on the value that holds the items. *)
Fixpoint flatten_tree_of (node : pyval) (keys : list pyval) : list pyval :=
  match node with
  | VDict items =>
      fold_left
        (fun result kv =>
           match kv with
           | (k, VDict _ as v) => result ++ flatten_tree_of v (keys ++ [k])
           | (k, v) => result ++ [VTuple (keys ++ [k; v])]
           end)
        items []
  | _ => []
  end.

(** [keys] is never written to, so an omitted [keys], the default object
    [[]] of the signature, is [[]] at every call. *)
Definition flatten_tree (d : dict) (keys : list pyval) : list pyval :=
  flatten_tree_of (VDict d) keys.

(** One pass of the loop body, with the recursive call written out. *)
Definition flatten_step (keys : list pyval) (result : list pyval)
    (kv : pyval * pyval) : list pyval :=
  match kv with
  | (k, VDict d') => result ++ flatten_tree d' (keys ++ [k])
  | (k, v) => result ++ [VTuple (keys ++ [k; v])]
  end.

(** *** The same function over a store of list objects

    Python lists are mutable objects.  Here every list the function touches
    lives in a store: [keys] is the address of the caller's list (the one
    default object [[]] of the signature when the argument is omitted),
    [keys + [k]] and [keys + [k, v]] allocate, and [result.extend] and
    [result.append] write to the object bound to [result]. *)
Abbreviation heap := (list (list pyval)).

Definition new_list (h : heap) (xs : list pyval) : nat * heap :=
  (length h, h ++ [xs]).

Definition contents (h : heap) (l : nat) : list pyval :=
  default [] (h !! l).

Definition set_contents (h : heap) (l : nat) (xs : list pyval) : heap :=
  <[l := xs]> h.

Fixpoint flatten_tree_heap_of (node : pyval) (keys : nat) (h : heap)
    : nat * heap :=
  match node with
  | VDict items =>
      let (result, h) := new_list h [] in
      (result,
       fold_left
         (fun h kv =>
            match kv with
            | (k, VDict _ as v) =>
                let (keys', h) := new_list h (contents h keys ++ [k]) in
                let (sub, h) := flatten_tree_heap_of v keys' h in
                set_contents h result (contents h result ++ contents h sub)
            | (k, v) =>
                let (tmp, h) := new_list h (contents h keys ++ [k; v]) in
                set_contents h result
                  (contents h result ++ [VTuple (contents h tmp)])
            end)
         items h)
  | _ => (0%nat, h)
  end.

Definition flatten_tree_heap (d : dict) (keys : nat) (h : heap)
    : nat * heap :=
  flatten_tree_heap_of (VDict d) keys h.

(** *** Root-to-leaf paths *)

(** [root_to_leaf d ks leaf]: descending from [d] through the keys [ks], in
    this order, ends at the value [leaf], which is not a [dict]. *)
Inductive root_to_leaf : dict -> list pyval -> pyval -> Prop :=
| rtl_leaf d k v :
    In (k, v) d -> is_dict v = false -> root_to_leaf d [k] v
| rtl_node d k d' ks v :
    In (k, VDict d') d -> root_to_leaf d' ks v -> root_to_leaf d (k :: ks) v.

(** A [dict] holds every key once, at each level of the nesting. *)
Inductive unique_keys : dict -> Prop :=
| unique_keys_intro d :
    List.NoDup (dict_keys d) ->
    (forall k d', In (k, VDict d') d -> unique_keys d') ->
    unique_keys d.

(** The Branch of a path below the accumulated prefix [keys]. *)
Definition Branch (keys : list pyval) (path : list pyval * pyval) : pyval :=
  VTuple (keys ++ path.1 ++ [path.2]).

(** ** [itertools.combinations] *)

(** The [r]-length subsequences of [pool], in the lexicographic order of
    the chosen positions. *)
Fixpoint combinations {A} (pool : list A) (r : nat) : list (list A) :=
  match r, pool with
  | O, _ => [[]]
  | S _, [] => []
  | S r', x :: rest =>
      map (cons x) (combinations rest r') ++ combinations rest r
  end.

(** The pairs of positions [i < j] below [n], in lexicographic order. *)
Definition ordered_index_pairs (n : nat) : list (nat * nat) :=
  flat_map (fun i => map (pair i) (seq (S i) (n - S i))) (seq 0 n).

(** The tuple of the elements at two positions of a sequence. *)
Definition pair_at (xs : list pyval) (ij : nat * nat) : pyval :=
  VTuple [nth ij.1 xs VNone; nth ij.2 xs VNone].

(** ** Exceptions and results *)

(** The exceptions the encoders raise.  The first four are the
    [Exception(...)] the class raises itself, told apart by their message;
    the others come from the interpreter and from numpy. *)
Inductive pyexn : Type :=
| UnsupportedStructure       (* "Unsupported structure! please use ..." *)
| NeedWeightedSupport        (* "need to determine support for weighted hashing" *)
| UnsupportedWeightedOption  (* "unsupported option for weighted sets" *)
| TreeOneRoot                (* "A tree has only 1 root node!" *)
| ValueError
| TypeError
| AttributeError
| IndexError
| OverflowError.

Inductive result (A : Type) : Type :=
| Ok (a : A)
| Raise (e : pyexn).
Arguments Ok {A} a.
Arguments Raise {A} e.

(** Sequencing: an exception ends the computation.  [x ← m; k] is stdpp's
    notation for [m ≫= λ x, k]. *)
#[global] Instance result_bind : MBind result := λ A B f m,
  match m with
  | Ok a => f a
  | Raise e => Raise e
  end.

(** A comprehension whose body may raise: the first exception ends it. *)
Fixpoint traverse {A B} (f : A -> result B) (l : list A) : result (list B) :=
  match l with
  | [] => Ok []
  | x :: l' => y ← f x; ys ← traverse f l'; Ok (y :: ys)
  end.

(** ** The interfaces the encoders are written against *)

(** The builtins: [str(obj)], [s.encode('utf8')], [int(key)], and the
    conversion of a weight to a cell of a float64 array.  [cell] is the
    type of those cells and [cell_zero] is [0.0]. *)
Class Python := {
  py_str : pyval -> string;
  encode_utf8 : string -> list byte;
  py_int : pyval -> result Z;
  cell : Type;
  cell_zero : cell;
  as_cell : pyval -> result cell;
}.

(** datasketch: [MinHash(num_perm=n)] and [update], and
    [WeightedMinHashGenerator(dim, sample_size=s)] and [minhash].  The
    calls are taken to return: what the engine refuses by itself (a vector
    of zeros only, say) lies behind this interface. *)
Class Datasketch `{Python} := {
  MinHashT : Type;
  MinHash : Z -> MinHashT;
  update : MinHashT -> list byte -> MinHashT;
  GeneratorT : Type;
  WeightedMinHashGenerator : Z -> Z -> GeneratorT;
  WeightedMinHashT : Type;
  minhash : GeneratorT -> list cell -> WeightedMinHashT;
}.

(** What [hash_data] returns: the empty list of [tree_hashing], a
    [MinHash], or a [WeightedMinHash]. *)
Inductive outcome `{Datasketch} : Type :=
| EmptyList
| Sketch (m : MinHashT)
| WeightedSketch (w : WeightedMinHashT).

(** Iterating a value: a [dict] yields its keys, a string its characters;
    [None] and integers are not iterable. *)
Definition py_iter (data : pyval) : result (list pyval) :=
  match data with
  | VTuple xs | VList xs | VSet xs => Ok xs
  | VDict d => Ok (dict_keys d)
  | VStr s =>
      Ok (map (fun c => VStr (String c EmptyString))
            (String.list_ascii_of_string s))
  | VNone | VInt _ => Raise TypeError
  end.

(** [data.keys()] and [data.values()] exist for a [dict]. *)
Definition as_dict (data : pyval) : result dict :=
  match data with
  | VDict d => Ok d
  | _ => Raise AttributeError
  end.

(** An attribute that [__init__] may not have set. *)
Definition attr {A} (a : option A) : result A :=
  match a with
  | Some x => Ok x
  | None => Raise AttributeError
  end.

(** ** numpy *)

Section numpy.
Context `{Python}.

(** [zeros(n)] *)
Definition zeros (n : Z) : list cell := replicate (Z.to_nat n) cell_zero.

(** The index array of [put] holds machine integers. *)
Definition intp (i : Z) : result Z :=
  if (- 2 ^ 63 <=? i) && (i <? 2 ^ 63) then Ok i else Raise OverflowError.

(** The loop of [put] in its default mode ['raise']: an index [i] with
    [-n <= i < n] is accepted and a negative one counts from the end;
    any other index raises. *)
Definition wrap_index (n i : Z) : Z := if i <? 0 then i + n else i.

Fixpoint put_loop (a : list cell) (ivs : list (Z * cell))
    : result (list cell) :=
  match ivs with
  | [] => Ok a
  | (i, x) :: ivs' =>
      let n := Z.of_nat (length a) in
      if (- n <=? i) && (i <? n)
      then put_loop (<[Z.to_nat (wrap_index n i) := x]> a) ivs'
      else Raise IndexError
  end.

(** [put(a, ind, v)] for [ind] and [v] of one length, as the keys and
    the values of one [dict] are: both are converted to arrays first. *)
Definition put (a : list cell) (ind : list Z) (v : list pyval)
    : result (list cell) :=
  ind' ← traverse intp ind;
  v' ← traverse as_cell v;
  put_loop a (combine ind' v').
End numpy.

(** ** The class [SimilarityHashing] *)

(** The value of the parameter [weighted_option]: a string, or a boolean
    (the code compares it with [False]). *)
Inductive option_arg : Type :=
| OptStr (s : string)
| OptBool (b : bool).

(** The bound methods kept in [structure_function]. *)
Inductive method : Type :=
| method_set_hashing
| method_sequence_hashing
| method_tree_hashing
| method_weighted_set_hashing.

(** Lookup in a [dict] literal with string keys. *)
Fixpoint table_get {A} (table : list (string * A)) (key : string) : option A :=
  match table with
  | [] => None
  | (k, v) :: table' => if String.eqb key k then Some v else table_get table' key
  end.

Module SimilarityHashing.
Section methods.
Context `{Datasketch}.

Record self : Type := {
  structure_name : string;
  structure_function : method;
  num_hash : Z;
  weighted_set_option : option Z;
  weighted_hash_gen : option GeneratorT;
}.

Definition structures : list (string * method) :=
  [("set", method_set_hashing);
   ("sequence", method_sequence_hashing);
   ("tree", method_tree_hashing);
   ("weighted_set", method_weighted_set_hashing)]%string.

Definition weighted_set_options : list (string * Z) :=
  [("ports", 65536); ("english", 100); ("sfc", 10)]%string.

(** [weighted_option == False] *)
Definition is_False (w : option_arg) : bool :=
  match w with
  | OptBool false => true
  | _ => false
  end.

(** [weighted_set_options.get(weighted_option)]: no boolean is a key. *)
Definition weighted_set_options_get (w : option_arg) : option Z :=
  match w with
  | OptStr s => table_get weighted_set_options s
  | OptBool _ => None
  end.

(** [__init__(self, structure, size, weighted_option='None')]: an
    omitted [weighted_option] is the string ['None']. *)
Definition __init__ (structure : string) (size : Z)
    (weighted_option : option option_arg) : result self :=
  let weighted_option := default (OptStr "None") weighted_option in
  match table_get structures structure with
  | None => Raise UnsupportedStructure
  | Some f =>
      let sample_size := size in
      if String.eqb structure "weighted_set" then
        if is_False weighted_option then Raise NeedWeightedSupport
        else
          match weighted_set_options_get weighted_option with
          | Some dim =>
              Ok {| structure_name := structure;
                    structure_function := f;
                    num_hash := size;
                    weighted_set_option := Some dim;
                    weighted_hash_gen :=
                      Some (WeightedMinHashGenerator dim sample_size) |}
          | None => Raise UnsupportedWeightedOption
          end
      else
        Ok {| structure_name := structure;
              structure_function := f;
              num_hash := size;
              weighted_set_option := None;
              weighted_hash_gen := None |}
  end.

(** The loop of [set_hashing] over the objects [data] yields. *)
Definition set_hashing_loop (hash_gen : MinHashT) (objs : list pyval)
    : MinHashT :=
  fold_left (fun hash_gen obj => update hash_gen (encode_utf8 (py_str obj)))
    objs hash_gen.

Definition set_hashing (s : self) (data : pyval) : result MinHashT :=
  let hash_gen := MinHash (num_hash s) in
  objs ← py_iter data;
  Ok (set_hashing_loop hash_gen objs).

Definition weighted_set_hashing (s : self) (data : pyval)
    : result WeightedMinHashT :=
  dim ← attr (weighted_set_option s);
  let vector := zeros dim in
  d ← as_dict data;
  ind ← traverse py_int (dict_keys d);
  vector ← put vector ind (dict_values d);
  gen ← attr (weighted_hash_gen s);
  Ok (minhash gen vector).

(** [combinations(data, 2)] reads its whole argument when it is built;
    the tuples it yields afterwards are kept as a list. *)
Definition sequence_hashing (s : self) (data : pyval) : result MinHashT :=
  pool ← py_iter data;
  let data := VList (map VTuple (combinations pool 2)) in
  set_hashing s data.

(** The items of a tuple, for [combinations(branch, 2)]. *)
Definition tuple_items (branch : pyval) : list pyval :=
  match branch with
  | VTuple xs => xs
  | _ => []
  end.

Definition tree_hashing (s : self) (data : pyval) : result outcome :=
  d ← as_dict data;
  let root_lst := dict_keys d in
  if (length root_lst =? 0)%nat then Ok EmptyList
  else if (1 <? length root_lst)%nat then Raise TreeOneRoot
  else
    let list_of_sequences := flatten_tree d [] in
    let list_of_pairs :=
      flat_map (fun branch => map VTuple (combinations (tuple_items branch) 2))
        list_of_sequences in
    tree_hash ← set_hashing s (VList list_of_pairs);
    Ok (Sketch tree_hash).

Definition hash_data (s : self) (data : pyval) : result outcome :=
  match structure_function s with
  | method_set_hashing => m ← set_hashing s data; Ok (Sketch m)
  | method_sequence_hashing => m ← sequence_hashing s data; Ok (Sketch m)
  | method_tree_hashing => tree_hashing s data
  | method_weighted_set_hashing =>
      w ← weighted_set_hashing s data; Ok (WeightedSketch w)
  end.
End methods.
End SimilarityHashing.

(** ** Vocabulary of the specification *)

(** ConfigurationError: what [__init__] raises by itself. *)
Definition ConfigurationError (e : pyexn) : Prop :=
  e = UnsupportedStructure \/ e = NeedWeightedSupport
  \/ e = UnsupportedWeightedOption.

(** StructureError: a tree with more than one root. *)
Definition StructureError (e : pyexn) : Prop := e = TreeOneRoot.

(** RangeError: an index the vector does not have, or a key that is not
    an integer. *)
Definition out_of_range_error (e : pyexn) : Prop :=
  e = IndexError \/ e = OverflowError.

(** The four structure kinds and the three weighted options. *)
Definition structure_kinds : list string :=
  ["set"; "sequence"; "tree"; "weighted_set"]%string.

Definition option_names : list string := ["ports"; "english"; "sfc"]%string.

(** The option is present and is one of the three names. *)
Definition recognized_option (w : option option_arg) : Prop :=
  exists name, In name option_names /\ w = Some (OptStr name).

(** The weight written last at index [i], [c] when there is none. *)
Definition last_write_from `{Python} (c : cell) (ivs : list (Z * cell))
    (i : Z) : cell :=
  fold_left (fun c iv => if iv.1 =? i then iv.2 else c) ivs c.

(** The weight written last at index [i], zero when there is none. *)
Definition last_write `{Python} (ivs : list (Z * cell)) (i : Z) : cell :=
  last_write_from cell_zero ivs i.

(** The entries of [put] with their indices counted from the start. *)
Definition wrapped `{Python} (n : Z) (ivs : list (Z * cell))
    : list (Z * cell) :=
  map (fun iv => (wrap_index n iv.1, iv.2)) ivs.

(** The Token of an element. *)
Definition Token `{Python} (obj : pyval) : list byte :=
  encode_utf8 (py_str obj).

(** The 2-combinations of a Branch, by positions. *)
Definition branch_pairs (branch : pyval) : list pyval :=
  map (pair_at (SimilarityHashing.tuple_items branch))
    (ordered_index_pairs (length (SimilarityHashing.tuple_items branch))).

(** What one item adds to [result]. *)
Definition item_branches (keys : list pyval) (kv : pyval * pyval)
    : list pyval :=
  flatten_step keys [] kv.

(** The paths through one item of a [dict]. *)
Definition item_path (kv : pyval * pyval) (ks : list pyval) (leaf : pyval)
    : Prop :=
  match kv.2 with
  | VDict d' => exists ks', ks = kv.1 :: ks' /\ root_to_leaf d' ks' leaf
  | v => ks = [kv.1] /\ leaf = v
  end.

(** The enumeration of the paths of a [dict] that [flatten_tree] follows:
    a list without repetition that holds exactly the root-to-leaf paths,
    whose Branches, in this order, are the result. *)
Definition enumerates (d : dict) (paths : list (list pyval * pyval)) : Prop :=
  List.NoDup paths
  /\ (forall ks leaf, In (ks, leaf) paths <-> root_to_leaf d ks leaf)
  /\ (forall keys, flatten_tree d keys = map (Branch keys) paths).

(** One pass of the loop body over the store. *)
Definition heap_step (keys result : nat) (h : heap) (kv : pyval * pyval)
    : heap :=
  match kv with
  | (k, VDict d') =>
      let (keys', h) := new_list h (contents h keys ++ [k]) in
      let (sub, h) := flatten_tree_heap d' keys' h in
      set_contents h result (contents h result ++ contents h sub)
  | (k, v) =>
      let (tmp, h) := new_list h (contents h keys ++ [k; v]) in
      set_contents h result (contents h result ++ [VTuple (contents h tmp)])
  end.

(** What a call leaves behind: the list objects that existed keep their
    contents, and the object it returns is new and holds [branches]. *)
Definition call_effect (h : heap) (out : nat * heap) (branches : list pyval)
    : Prop :=
  out.1 = length h
  /\ (length h < length out.2)%nat
  /\ (forall l, (l < length h)%nat -> contents out.2 l = contents h l)
  /\ contents out.2 out.1 = branches.

(** ** A runtime to run the encoders on

    An instance of the two interfaces: the builtins on plain values, and
    an engine that records what it is given. *)
Module Reference.

Definition is_space (c : ascii) : bool :=
  let n := nat_of_ascii c in
  ((9 <=? n) && (n <=? 13) || (n =? 32))%nat.

Definition digit_of (c : ascii) : option Z :=
  let n := nat_of_ascii c in
  if ((48 <=? n) && (n <=? 57))%nat then Some (Z.of_nat n - 48) else None.

(** Decimal digits, with single underscores between them. *)
Fixpoint digits (s : list ascii) (acc : Z) (after_digit : bool) : option Z :=
  match s with
  | [] => if after_digit then Some acc else None
  | c :: s' =>
      match digit_of c with
      | Some d => digits s' (10 * acc + d) true
      | None =>
          if Ascii.eqb c "_" && after_digit then digits s' acc false
          else None
      end
  end.

Definition strip (s : list ascii) : list ascii :=
  let drop := fix drop (s : list ascii) :=
    match s with
    | c :: s' => if is_space c then drop s' else s
    | [] => []
    end in
  rev (drop (rev (drop s))).

(** [int(s)] for a decimal literal: blanks around it, a sign, digits. *)
Definition int_of_string (s : string) : option Z :=
  match strip (String.list_ascii_of_string s) with
  | "-"%char :: ds => Z.opp <$> digits ds 0 false
  | "+"%char :: ds => digits ds 0 false
  | ds => digits ds 0 false
  end.

Definition int (v : pyval) : result Z :=
  match v with
  | VInt n => Ok n
  | VStr s =>
      match int_of_string s with
      | Some n => Ok n
      | None => Raise ValueError
      end
  | _ => Raise TypeError
  end.

(** [repr(v)]; a string is put between quotes as it is, which is what
    Python prints for printable text without quotes or backslashes. *)
Fixpoint repr (v : pyval) : string :=
  match v with
  | VNone => "None"
  | VInt n => pretty n
  | VStr s => "'" +:+ s +:+ "'"
  | VTuple [x] => "(" +:+ repr x +:+ ",)"
  | VTuple xs => "(" +:+ String.concat ", " (map repr xs) +:+ ")"
  | VList xs => "[" +:+ String.concat ", " (map repr xs) +:+ "]"
  | VSet [] => "set()"
  | VSet xs => "{" +:+ String.concat ", " (map repr xs) +:+ "}"
  | VDict d =>
      "{" +:+ String.concat ", "
                (map (fun kv => repr kv.1 +:+ ": " +:+ repr kv.2) d) +:+ "}"
  end.

Definition str (v : pyval) : string :=
  match v with
  | VStr s => s
  | _ => repr v
  end.

Definition bytes_of (s : string) : list byte := String.list_byte_of_string s.

(** A cell holds an integer of at most 53 bits as it is. *)
Definition cell_of (v : pyval) : result Z :=
  match v with
  | VInt n => if Z.abs n <=? 2 ^ 53 then Ok n else Raise OverflowError
  | _ => Raise TypeError
  end.

#[export] Instance python : Python := {|
  py_str := str;
  encode_utf8 := bytes_of;
  py_int := int;
  cell := Z;
  cell_zero := 0;
  as_cell := cell_of;
|}.

(** The engine as a recorder: a [MinHash] is its [num_perm] and the
    updates it got, oldest first; a weighted sketch is the generator's
    arguments and the vector. *)
#[export] Instance recorder : Datasketch := {|
  MinHashT := Z * list (list byte);
  MinHash := fun num_perm => (num_perm, []);
  update := fun m b => (m.1, m.2 ++ [b]);
  GeneratorT := Z * Z;
  WeightedMinHashGenerator := fun dim sample_size => (dim, sample_size);
  WeightedMinHashT := (Z * Z) * list Z;
  minhash := fun gen v => (gen, v);
|}.

(** The tree, the sequence, the set and the weighted set of the script's
    own run, and a weighted set with a key below zero. *)
Definition demo_tree : dict :=
  [(VInt 1, VDict [(VInt 9, VInt 10);
                   (VInt 2, VDict [(VInt 3, VInt 6)]);
                   (VInt 4, VDict [(VInt 5, VDict [(VInt 7, VInt 8)])])])].

Definition demo_sequence : pyval := VTuple [VInt 1; VInt 2; VInt 3].

Definition demo_set : pyval := VSet [VInt 1; VInt 2; VInt 3].

Definition demo_weighted_set : dict :=
  [(VStr "1", VInt 1); (VStr "2", VInt 2); (VStr "4", VInt 3)].

Definition two_roots : dict := [(VInt 1, VInt 5); (VInt 2, VInt 6)].

Definition negative_key : dict := [(VStr "-1", VInt 5)].

(** The encoder [SimilarityHashing('weighted_set', 64, 'sfc')]. *)
Definition sfc_encoder : SimilarityHashing.self := {|
  SimilarityHashing.structure_name := "weighted_set";
  SimilarityHashing.structure_function := method_weighted_set_hashing;
  SimilarityHashing.num_hash := 64;
  SimilarityHashing.weighted_set_option := Some 10;
  SimilarityHashing.weighted_hash_gen := Some (10, 64);
|}.

(** The encoder [SimilarityHashing('tree', 4096)]. *)
Definition tree_encoder : SimilarityHashing.self := {|
  SimilarityHashing.structure_name := "tree";
  SimilarityHashing.structure_function := method_tree_hashing;
  SimilarityHashing.num_hash := 4096;
  SimilarityHashing.weighted_set_option := None;
  SimilarityHashing.weighted_hash_gen := None;
|}.

End Reference.

(** ** Sizes and shapes of trees *)

(** The number of values that are not a [dict], at any depth of a value. *)
Fixpoint leaf_count_of (node : pyval) : nat :=
  match node with
  | VDict items =>
      list_sum (map (fun kv => match kv with (_, v) => leaf_count_of v end)
                  items)
  | _ => 1%nat
  end.

Definition leaf_count (d : dict) : nat := leaf_count_of (VDict d).

(** The value [{k1: {k2: ... {kn: leaf}}}] below a root: a single path. *)
Fixpoint chain (ks : list pyval) (leaf : pyval) : pyval :=
  match ks with
  | [] => leaf
  | k :: ks' => VDict [(k, chain ks' leaf)]
  end.

(** The pairs [tree_hashing] gives to [set_hashing] for a tree. *)
Definition tree_pairs (d : dict) : list pyval :=
  flat_map branch_pairs (flatten_tree d []).

(** A weighted set with the items of the script's one in another order. *)
Definition reordered_weighted_set : dict :=
  [(VStr "4", VInt 3); (VStr "1", VInt 1); (VStr "2", VInt 2)].

(** * Properties *)

(** ** [flatten_tree]: one Branch per root-to-leaf path *)

Lemma fold_left_pointwise {A B} (f g : A -> B -> A) (l : list B) (a : A) :
  (forall x y, f x y = g x y) -> fold_left f l a = fold_left g l a.
Proof.
  intros Hfg. revert a. induction l as [|y l IH]; intros a; simpl.
  - reflexivity.
  - rewrite Hfg. apply IH.
Qed.

Lemma flatten_tree_unfold d keys :
  flatten_tree d keys = fold_left (flatten_step keys) d [].
Proof.
  unfold flatten_tree; simpl.
  apply fold_left_pointwise. intros result [k v]. destruct v; reflexivity.
Qed.

Lemma flatten_step_acc keys result kv :
  flatten_step keys result kv = result ++ item_branches keys kv.
Proof. destruct kv as [k v]. destruct v; reflexivity. Qed.

Lemma flatten_loop_acc keys l result :
  fold_left (flatten_step keys) l result
  = result ++ fold_left (flatten_step keys) l [].
Proof.
  revert result. induction l as [|kv l IH]; intros result; simpl.
  - symmetry. apply app_nil_r.
  - rewrite IH. rewrite (IH (flatten_step keys [] kv)).
    rewrite (flatten_step_acc keys result). rewrite <- app_assoc. reflexivity.
Qed.

Lemma flatten_tree_nil keys : flatten_tree [] keys = [].
Proof. reflexivity. Qed.

Lemma flatten_tree_cons kv d keys :
  flatten_tree (kv :: d) keys = item_branches keys kv ++ flatten_tree d keys.
Proof.
  rewrite !flatten_tree_unfold. simpl. apply flatten_loop_acc.
Qed.

Lemma root_to_leaf_cons kv d ks leaf :
  root_to_leaf (kv :: d) ks leaf <-> item_path kv ks leaf \/ root_to_leaf d ks leaf.
Proof.
  destruct kv as [k v]. unfold item_path; simpl. split.
  - intros Hp. inversion Hp as [d0 k0 v0 Hin Hleaf | d0 k0 d' ks' v0 Hin Hsub];
      subst; destruct Hin as [E | Hin].
    + inversion E; subst. left. destruct leaf; try discriminate; auto.
    + right. now apply rtl_leaf.
    + inversion E; subst. left. eauto.
    + right. eapply rtl_node; eauto.
  - intros [Hhead | Hrest].
    + destruct v;
        try (destruct Hhead as [-> ->]; apply rtl_leaf; [now left | reflexivity]).
      destruct Hhead as (ks' & -> & Hsub). eapply rtl_node; [now left | exact Hsub].
    + inversion Hrest; subst.
      * apply rtl_leaf; [now right | assumption].
      * eapply rtl_node; [right; eassumption | assumption].
Qed.

Lemma root_to_leaf_nil ks leaf : ~ root_to_leaf [] ks leaf.
Proof. intros Hp. inversion Hp; subst; contradiction. Qed.

(** A path starts with a key of the [dict]. *)
Lemma root_to_leaf_head d ks leaf :
  root_to_leaf d ks leaf -> exists k ks', ks = k :: ks' /\ In k (dict_keys d).
Proof.
  intros Hp. inversion Hp as [d0 k v Hin _ | d0 k d' ks' v Hin _]; subst;
    exists k; eexists; (split; [reflexivity |]);
    apply in_map_iff; eexists; (split; [| exact Hin]); reflexivity.
Qed.

Lemma unique_keys_cons kv d :
  unique_keys (kv :: d) ->
  ~ In kv.1 (dict_keys d) /\ unique_keys d
  /\ (forall d', kv.2 = VDict d' -> unique_keys d').
Proof.
  intros Hu. inversion Hu as [d0 Hnd Hsub]; subst.
  simpl in Hnd. apply List.NoDup_cons_iff in Hnd as [Hnotin Hnd].
  split; [exact Hnotin |]. split.
  - constructor; [exact Hnd |]. intros k d' Hin. apply (Hsub k). now right.
  - intros d' E. apply (Hsub kv.1). left. destruct kv; simpl in *; congruence.
Qed.

Lemma NoDup_map_injective {A B} (f : A -> B) (l : list A) :
  (forall x y, f x = f y -> x = y) -> List.NoDup l -> List.NoDup (map f l).
Proof.
  intros Hinj Hnd. induction Hnd as [|x l Hx Hnd IH]; simpl; constructor.
  - rewrite in_map_iff. intros (y & E & Hy). apply Hinj in E. now subst.
  - exact IH.
Qed.

Lemma item_path_head kv ks leaf :
  item_path kv ks leaf -> exists ks', ks = kv.1 :: ks'.
Proof.
  unfold item_path. destruct kv as [k v]; simpl.
  destruct v; try (intros [-> _]; eexists; reflexivity).
  intros (ks' & -> & _). eexists; reflexivity.
Qed.

Lemma enumerates_item k v :
  (forall d', v = VDict d' -> exists paths', enumerates d' paths') ->
  exists ph,
    List.NoDup ph
    /\ (forall ks leaf, In (ks, leaf) ph <-> item_path (k, v) ks leaf)
    /\ (forall keys, item_branches keys (k, v) = map (Branch keys) ph).
Proof.
  intros Hsub.
  assert (Hleaf : is_dict v = false ->
            exists ph, List.NoDup ph
              /\ (forall ks leaf, In (ks, leaf) ph <-> (ks = [k] /\ leaf = v))
              /\ (forall keys, [VTuple (keys ++ [k; v])] = map (Branch keys) ph)).
  { intros _. exists [([k], v)]. split; [| split].
    - constructor; [intros [] | constructor].
    - intros ks leaf; simpl; split.
      + intros [E | []]. inversion E; auto.
      + intros [-> ->]. now left.
    - intros keys. reflexivity. }
  destruct v as [| n | s | xs | xs | xs | d'];
    try (exact (Hleaf eq_refl)).
  clear Hleaf. destruct (Hsub d' eq_refl) as (paths' & Hnd & Hin & Hflat).
  exists (map (fun p => (k :: p.1, p.2)) paths'). split; [| split].
  - apply NoDup_map_injective; [| exact Hnd].
    intros [ks1 l1] [ks2 l2] E; simpl in E. congruence.
  - intros ks leaf. unfold item_path; simpl. rewrite in_map_iff. split.
    + intros ([ks' leaf'] & E & Hp); simpl in E. inversion E; subst.
      exists ks'. split; [reflexivity | now apply Hin].
    + intros (ks' & -> & Hp). exists (ks', leaf). split; [reflexivity | now apply Hin].
  - intros keys. unfold item_branches; simpl. rewrite Hflat, map_map.
    apply map_ext. intros [ks leaf]. unfold Branch; simpl.
    now rewrite <- app_assoc.
Qed.

Lemma enumerates_dict d :
  (forall k d', In (k, VDict d') d -> unique_keys d' ->
                exists paths', enumerates d' paths') ->
  unique_keys d -> exists paths, enumerates d paths.
Proof.
  induction d as [|[k v] d IH]; intros Hsub Hu.
  - exists []. split; [constructor | split].
    + intros ks leaf; split; [intros [] | intros Hp; now apply root_to_leaf_nil in Hp].
    + intros keys. reflexivity.
  - apply unique_keys_cons in Hu as (Hfresh & Hu & Huv); simpl in Hfresh, Huv.
    destruct IH as (pd & Hnd & Hin & Hflat);
      [intros k' d' Hk; apply (Hsub k'); now right | exact Hu |].
    destruct (enumerates_item k v) as (ph & Hndh & Hinh & Hflath).
    { intros d' ->. apply (Hsub k); [now left | now apply Huv]. }
    exists (ph ++ pd). split; [| split].
    + apply List.NoDup_app; try assumption.
      intros [ks leaf] H1 H2. apply Hinh in H1. apply Hin in H2.
      apply item_path_head in H1 as (ks1 & ->).
      apply root_to_leaf_head in H2 as (k2 & ks2 & E & Hk2).
      inversion E; subst. contradiction.
    + intros ks leaf. rewrite in_app_iff, root_to_leaf_cons, Hinh, Hin. reflexivity.
    + intros keys. rewrite flatten_tree_cons, map_app, Hflath, Hflat. reflexivity.
Qed.

Lemma enumerates_value v :
  forall d, v = VDict d -> unique_keys d -> exists paths, enumerates d paths.
Proof.
  induction v as [| | | | | | d0 IH] using pyval_dict_ind;
    intros d E; try discriminate.
  inversion E; subst d0. apply enumerates_dict.
  intros k d' Hk Hu'. exact (IH k (VDict d') Hk d' eq_refl Hu').
Qed.

(** Every Branch is a tuple. *)
Lemma flatten_tree_tuples_value v :
  forall d, v = VDict d ->
  forall keys b, In b (flatten_tree d keys) -> exists items, b = VTuple items.
Proof.
  induction v as [| | | | | | d0 IH] using pyval_dict_ind;
    intros d E; try discriminate.
  inversion E; subst d0. clear E.
  induction d as [|[k v] d IHd]; intros keys b Hb.
  - rewrite flatten_tree_nil in Hb. contradiction.
  - rewrite flatten_tree_cons in Hb. apply in_app_iff in Hb as [Hb | Hb].
    + unfold item_branches, flatten_step in Hb.
      destruct v as [| n | s | xs | xs | xs | d'];
        try (destruct Hb as [<- | []]; eexists; reflexivity).
      simpl in Hb.
      exact (IH k (VDict d') (or_introl eq_refl) d' eq_refl _ b Hb).
    + apply (IHd (fun k' v' Hin => IH k' v' (or_intror Hin)) keys b Hb).
Qed.

Lemma flatten_tree_tuples d keys b :
  In b (flatten_tree d keys) -> exists items, b = VTuple items.
Proof. apply (flatten_tree_tuples_value (VDict d) d eq_refl). Qed.

(** ** [flatten_tree] over the store *)

Arguments flatten_tree : simpl never.
Arguments flatten_tree_heap : simpl never.

Lemma flatten_tree_heap_unfold d keys h :
  flatten_tree_heap d keys h
  = (length h, fold_left (heap_step keys (length h)) d (h ++ [[]])).
Proof.
  unfold flatten_tree_heap; simpl. f_equal.
  apply fold_left_pointwise. intros h' [k v]. destruct v; reflexivity.
Qed.

Lemma contents_new h xs : contents (h ++ [xs]) (length h) = xs.
Proof.
  unfold contents.
  now rewrite (list_lookup_middle h [] xs (length h) eq_refl).
Qed.

Lemma contents_old h xs l :
  (l < length h)%nat -> contents (h ++ [xs]) l = contents h l.
Proof. intros Hl. unfold contents. now rewrite lookup_app_l. Qed.

Lemma contents_set_eq h l xs :
  (l < length h)%nat -> contents (set_contents h l xs) l = xs.
Proof.
  intros Hl. unfold contents, set_contents.
  now rewrite list_lookup_insert_eq.
Qed.

Lemma contents_set_ne h l l' xs :
  l <> l' -> contents (set_contents h l xs) l' = contents h l'.
Proof.
  intros Hl. unfold contents, set_contents.
  now rewrite list_lookup_insert_ne.
Qed.

Lemma length_set_contents h l xs : length (set_contents h l xs) = length h.
Proof. apply length_insert. Qed.

(** The loop keeps the objects other than [result] as they are and
    appends to [result] what the pure loop appends. *)
Lemma heap_loop_effect keys result (d : dict) :
  (forall k d', In (k, VDict d') d ->
     forall keys' h', (keys' < length h')%nat ->
       call_effect h' (flatten_tree_heap d' keys' h')
         (flatten_tree d' (contents h' keys'))) ->
  forall h : heap,
    (keys < length h)%nat -> (result < length h)%nat -> keys <> result ->
    let h' := fold_left (heap_step keys result) d h in
    (length h <= length h')%nat
    /\ (forall l, (l < length h)%nat -> l <> result ->
          contents h' l = contents h l)
    /\ contents h' result
       = fold_left (flatten_step (contents h keys)) d (contents h result).
Proof.
  induction d as [|[k v] d IH]; intros Hsub h Hkeys Hres Hne; cbn [fold_left].
  - split; [lia | split; [reflexivity | reflexivity]].
  - pose (h1 := heap_step keys result h (k, v)).
    assert (Hstep : (length h <= length h1)%nat
              /\ (forall l, (l < length h)%nat -> l <> result ->
                    contents h1 l = contents h l)
              /\ contents h1 result
                 = flatten_step (contents h keys) (contents h result) (k, v)).
    { assert (Hleaf : is_dict v = false ->
         let h1 := set_contents (h ++ [contents h keys ++ [k; v]]) result
                     (contents (h ++ [contents h keys ++ [k; v]]) result
                      ++ [VTuple (contents (h ++ [contents h keys ++ [k; v]])
                                    (length h))]) in
         (length h <= length h1)%nat
         /\ (forall l, (l < length h)%nat -> l <> result ->
               contents h1 l = contents h l)
         /\ contents h1 result
            = contents h result ++ [VTuple (contents h keys ++ [k; v])]).
      { intros _ h2. subst h2. split; [| split].
        - rewrite length_set_contents, length_app; simpl; lia.
        - intros l Hl Hlr. rewrite contents_set_ne by congruence.
          now apply contents_old.
        - rewrite contents_set_eq by (rewrite length_app; simpl; lia).
          now rewrite contents_new, contents_old. }
      subst h1.
      destruct v as [| n | s | xs | xs | xs | d'];
        try (exact (Hleaf eq_refl)).
      clear Hleaf. unfold heap_step, new_list.
      pose proof (Hsub k d' (or_introl eq_refl) (length h)
                    (h ++ [contents h keys ++ [k]])) as Hcall.
      destruct (flatten_tree_heap d' (length h) (h ++ [contents h keys ++ [k]]))
        as [sub h2] eqn:Ecall.
      destruct Hcall as (Hsubloc & Hlen & Hold & Hnew);
        [rewrite length_app; simpl; lia |].
      simpl in Hsubloc, Hlen, Hold, Hnew. rewrite length_app in *; simpl in *.
      split; [| split].
      - rewrite length_set_contents. lia.
      - intros l Hl Hlr. rewrite contents_set_ne by congruence.
        rewrite Hold by lia. now apply contents_old.
      - rewrite contents_set_eq by lia.
        rewrite Hnew, contents_new.
        rewrite Hold by lia. now rewrite contents_old. }
    fold h1. clearbody h1. destruct Hstep as (Hlen1 & Hold1 & Hres1).
    destruct (IH (fun k' d' Hin => Hsub k' d' (or_intror Hin)) h1)
      as (Hlen2 & Hold2 & Hres2); [lia | lia | exact Hne |].
    split; [lia | split].
    + intros l Hl Hlr. rewrite Hold2 by lia. now apply Hold1.
    + rewrite Hres2, Hres1, Hold1 by (lia || congruence). reflexivity.
Qed.

Lemma flatten_tree_heap_value v :
  forall d, v = VDict d ->
  forall keys (h : heap), (keys < length h)%nat ->
    call_effect h (flatten_tree_heap d keys h)
      (flatten_tree d (contents h keys)).
Proof.
  induction v as [| | | | | | d0 IH] using pyval_dict_ind;
    intros d E; try discriminate.
  inversion E; subst d0. intros keys h Hkeys.
  rewrite flatten_tree_heap_unfold.
  destruct (heap_loop_effect keys (length h) d) with (h := h ++ [[]])
    as (Hlen & Hold & Hres).
  - intros k d' Hin. exact (IH k (VDict d') Hin d' eq_refl).
  - rewrite length_app; simpl; lia.
  - rewrite length_app; simpl; lia.
  - lia.
  - rewrite length_app in Hlen, Hold; simpl in Hlen, Hold.
    unfold call_effect; simpl. split; [reflexivity | split; [lia | split]].
    + intros l Hl. rewrite Hold by lia. now apply contents_old.
    + rewrite Hres, contents_new, contents_old by lia.
      symmetry. apply flatten_tree_unfold.
Qed.

Lemma flatten_tree_heap_effect d keys (h : heap) :
  (keys < length h)%nat ->
  call_effect h (flatten_tree_heap d keys h) (flatten_tree d (contents h keys)).
Proof. intros Hkeys. now apply (flatten_tree_heap_value (VDict d)). Qed.

(** C1.  For a nested mapping whose dicts hold each key once,
    [flatten_tree d keys] is the list of the Branches of an enumeration
    without repetition of all root-to-leaf paths of [d]: one Branch per
    path, the tuple of [keys], the keys along the path in order, and the
    leaf.  Run over the store of list objects from a valid address [loc],
    the call returns a new list object with these Branches and leaves the
    contents of every list object that existed before as they were: the
    accumulator is never written to, each recursive call gets a list of
    its own. *)
Theorem flatten_tree_one_branch_per_path (d : dict) :
  unique_keys d ->
  (exists paths : list (list pyval * pyval),
     List.NoDup paths
     /\ (forall ks leaf, In (ks, leaf) paths <-> root_to_leaf d ks leaf)
     /\ (forall keys,
           flatten_tree d keys
           = map (fun p => VTuple (keys ++ p.1 ++ [p.2])) paths))
  /\ (forall (h : heap) (loc : nat), (loc < length h)%nat ->
        let out := flatten_tree_heap d loc h in
        contents out.2 out.1 = flatten_tree d (contents h loc)
        /\ (length h <= out.1)%nat
        /\ (forall l, (l < length h)%nat -> contents out.2 l = contents h l)).
Proof.
  intros Hu. split.
  - destruct (enumerates_value (VDict d) d eq_refl Hu) as (paths & Hnd & Hin & Hflat).
    exists paths. split; [exact Hnd | split; [exact Hin | exact Hflat]].
  - intros h loc Hloc out.
    destruct (flatten_tree_heap_effect d loc h Hloc) as (Hfresh & _ & Hold & Hnew).
    fold out in Hfresh, Hold, Hnew.
    split; [exact Hnew | split; [lia | exact Hold]].
Qed.

(** ** [combinations(pool, 2)]: the pairs of positions in order *)

Section combinations.
Context {A : Type}.
Implicit Types (xs : list A) (x dflt : A).

Lemma combinations_zero xs : combinations xs 0 = [[]].
Proof. destruct xs; reflexivity. Qed.

Lemma combinations_one xs : combinations xs 1 = map (fun x => [x]) xs.
Proof.
  induction xs as [|x xs IH]; [reflexivity |].
  cbn [combinations]. rewrite combinations_zero, IH. reflexivity.
Qed.

Lemma combinations_two_cons x xs :
  combinations (x :: xs) 2 = map (fun y => [x; y]) xs ++ combinations xs 2.
Proof.
  cbn [combinations]. rewrite combinations_one, map_map. reflexivity.
Qed.

Lemma map_nth_positions dflt xs :
  map (fun j => nth j xs dflt) (seq 0 (length xs)) = xs.
Proof.
  induction xs as [|x xs IH]; [reflexivity |].
  cbn [length seq map nth]. rewrite <- seq_shift, map_map. cbn [nth].
  now rewrite IH.
Qed.
End combinations.

Lemma ordered_index_pairs_succ n :
  ordered_index_pairs (S n)
  = map (pair 0%nat) (seq 1 n)
    ++ map (fun ij => (S ij.1, S ij.2)) (ordered_index_pairs n).
Proof.
  unfold ordered_index_pairs. cbn [seq flat_map].
  replace (S n - 1)%nat with n by lia. f_equal.
  rewrite <- seq_shift.
  rewrite !flat_map_concat_map, concat_map, !map_map. f_equal.
  apply map_ext. intros i. cbn [Nat.sub].
  rewrite map_map. rewrite <- (seq_shift _ (S i)), map_map. reflexivity.
Qed.

Lemma in_ordered_index_pairs n i j :
  In (i, j) (ordered_index_pairs n) <-> (i < j < n)%nat.
Proof.
  unfold ordered_index_pairs. rewrite in_flat_map. split.
  - intros (i' & Hi' & Hin). apply in_map_iff in Hin as (j' & E & Hj').
    inversion E; subst. apply in_seq in Hi', Hj'. lia.
  - intros Hij. exists i. split; [apply in_seq; lia |].
    apply in_map_iff. exists j. split; [reflexivity | apply in_seq; lia].
Qed.

Lemma NoDup_ordered_index_pairs n : List.NoDup (ordered_index_pairs n).
Proof.
  induction n as [|n IH]; [constructor |].
  rewrite ordered_index_pairs_succ. apply List.NoDup_app.
  - apply NoDup_map_injective; [congruence | apply seq_NoDup].
  - apply NoDup_map_injective; [| exact IH].
    intros [i1 j1] [i2 j2] E; simpl in E. congruence.
  - intros [i j] H1 H2.
    apply in_map_iff in H1 as (j' & E1 & _).
    apply in_map_iff in H2 as ([i2 j2] & E2 & _). simpl in E2. congruence.
Qed.

Lemma length_ordered_index_pairs_double n :
  (2 * length (ordered_index_pairs n) = n * (n - 1))%nat.
Proof.
  induction n as [|n IH]; [reflexivity |].
  rewrite ordered_index_pairs_succ, length_app, !length_map, length_seq.
  destruct n; simpl in *; nia.
Qed.

(** C(n, 2) of them. *)
Lemma length_ordered_index_pairs n :
  length (ordered_index_pairs n) = (n * (n - 1) / 2)%nat.
Proof.
  rewrite <- length_ordered_index_pairs_double.
  rewrite Nat.mul_comm, Nat.div_mul; [reflexivity | discriminate].
Qed.

Lemma combinations_two_positions {A} (dflt : A) (xs : list A) :
  combinations xs 2
  = map (fun ij => [nth ij.1 xs dflt; nth ij.2 xs dflt])
      (ordered_index_pairs (length xs)).
Proof.
  induction xs as [|x xs IH]; [reflexivity |].
  rewrite combinations_two_cons. cbn [length].
  rewrite ordered_index_pairs_succ, map_app, !map_map. f_equal.
  - rewrite <- seq_shift, map_map. cbn [fst snd nth].
    rewrite <- (map_nth_positions dflt xs) at 1. now rewrite map_map.
  - rewrite IH. apply map_ext. intros [i j]. reflexivity.
Qed.

Lemma combinations_two_tuples (xs : list pyval) :
  map VTuple (combinations xs 2)
  = map (pair_at xs) (ordered_index_pairs (length xs)).
Proof.
  rewrite (combinations_two_positions VNone), map_map. reflexivity.
Qed.

(** ** The encoders *)

Section encoders.
Context `{Datasketch}.
Import SimilarityHashing.

(** The loop of [set_hashing] feeds the engine the Tokens, in order. *)
Lemma set_hashing_loop_tokens (m : MinHashT) (objs : list pyval) :
  set_hashing_loop m objs = fold_left update (map Token objs) m.
Proof.
  unfold set_hashing_loop. revert m.
  induction objs as [|obj objs IH]; intros m; [reflexivity |].
  cbn [fold_left map]. apply IH.
Qed.

Lemma set_hashing_list (s : self) (objs : list pyval) :
  set_hashing s (VList objs)
  = Ok (fold_left update (map Token objs) (MinHash (num_hash s))).
Proof.
  unfold set_hashing; simpl. now rewrite set_hashing_loop_tokens.
Qed.

Lemma init_num_hash structure size w (s : self) :
  __init__ structure size w = Ok s -> num_hash s = size.
Proof.
  unfold __init__. destruct (table_get structures structure); [| discriminate].
  destruct (String.eqb structure "weighted_set").
  - destruct (is_False _); [discriminate |].
    destruct (weighted_set_options_get _); [| discriminate].
    intros E; inversion E; reflexivity.
  - intros E; inversion E; reflexivity.
Qed.

(** C9.  For a collection that yields the elements [objs],
    [set_hashing] feeds the Token of every element, that is the bytes of
    its string form, to a [MinHash] built with [num_perm = num_hash], in
    the order of the elements: as many Tokens as elements, the Token at a
    position being that of the element there, so that an element that
    occurs twice is fed twice.  [num_hash] is the size [__init__] got. *)
Theorem set_hashing_feeds_all_tokens (s : self) (data : pyval)
    (objs : list pyval) :
  py_iter data = Ok objs ->
  let tokens := map Token objs in
  set_hashing s data = Ok (fold_left update tokens (MinHash (num_hash s)))
  /\ length tokens = length objs
  /\ (forall i : nat, tokens !! i = Token <$> objs !! i)
  /\ (forall obj, Token obj = encode_utf8 (py_str obj))
  /\ (forall structure size w,
        __init__ structure size w = Ok s -> num_hash s = size).
Proof.
  intros Hiter tokens. split; [| split; [| split; [| split]]].
  - unfold set_hashing. rewrite Hiter; simpl.
    now rewrite set_hashing_loop_tokens.
  - apply length_map.
  - intros i. apply list_lookup_fmap.
  - reflexivity.
  - intros structure size w. apply init_num_hash.
Qed.

(** C3.  For a sequence that yields [xs], of length [n],
    [sequence_hashing] gives [set_hashing] the tuples
    [(xs[i], xs[j])] for the pairs of positions [i < j < n], each pair of
    positions once, lexicographically: [n * (n - 1) / 2] tuples, three
    for [[a, b, c]], namely [(a, b)], [(a, c)], [(b, c)].  When the
    elements are distinct, no tuple comes with its reverse. *)
Theorem sequence_hashing_ordered_pairs (s : self) (data : pyval)
    (xs : list pyval) :
  py_iter data = Ok xs ->
  let n := length xs in
  let pairs := map (pair_at xs) (ordered_index_pairs n) in
  sequence_hashing s data = set_hashing s (VList pairs)
  /\ sequence_hashing s data
     = Ok (fold_left update (map Token pairs) (MinHash (num_hash s)))
  /\ length pairs = (n * (n - 1) / 2)%nat
  /\ List.NoDup (ordered_index_pairs n)
  /\ (forall i j, In (i, j) (ordered_index_pairs n) <-> (i < j < n)%nat)
  /\ (forall a b c, xs = [a; b; c] ->
        pairs = [VTuple [a; b]; VTuple [a; c]; VTuple [b; c]])
  /\ (List.NoDup xs ->
      forall a b, In (VTuple [a; b]) pairs -> ~ In (VTuple [b; a]) pairs).
Proof.
  intros Hiter n pairs.
  assert (Hseq : sequence_hashing s data = set_hashing s (VList pairs)).
  { unfold sequence_hashing. rewrite Hiter; simpl.
    now rewrite combinations_two_tuples. }
  split; [exact Hseq |].
  split; [rewrite Hseq; apply set_hashing_list |].
  split; [unfold pairs; rewrite length_map; apply length_ordered_index_pairs |].
  split; [apply NoDup_ordered_index_pairs |].
  split; [intros i j; apply in_ordered_index_pairs |].
  split; [intros a b c E; unfold pairs, n; rewrite E; reflexivity |].
  intros Hnd a b Hab Hba. unfold pairs in Hab, Hba.
  apply in_map_iff in Hab as ([i j] & Eab & Hij).
  apply in_map_iff in Hba as ([i' j'] & Eba & Hij').
  apply in_ordered_index_pairs in Hij, Hij'.
  unfold pair_at in Eab, Eba; simpl in Eab, Eba.
  inversion Eab as [[Ea Eb]]. inversion Eba as [[Eb' Ea']].
  rewrite (NoDup_nth xs VNone) in Hnd.
  assert (i = j') by (apply Hnd; [lia | lia | congruence]).
  assert (j = i') by (apply Hnd; [lia | lia | congruence]).
  lia.
Qed.
Lemma tree_hashing_single_root (s : self) (k v : pyval) :
  tree_hashing s (VDict [(k, v)])
  = (m ← set_hashing s
           (VList (flat_map branch_pairs (flatten_tree [(k, v)] [])));
     Ok (Sketch m)).
Proof.
  unfold tree_hashing; simpl.
  do 3 f_equal. apply flat_map_ext. intros branch.
  apply combinations_two_tuples.
Qed.

Lemma flat_map_after_map {A B C} (f : B -> list C) (g : A -> B)
    (l : list A) :
  flat_map f (map g l) = flat_map (fun x => f (g x)) l.
Proof.
  induction l as [|x l IH]; [reflexivity |].
  cbn [map flat_map]. now rewrite IH.
Qed.

(** C2.  For a tree with the single root [k], whose dicts hold each
    key once, the Branches [tree_hashing] works on are those of the
    root-to-leaf paths of the tree: there is an enumeration without
    repetition of exactly these paths, all starting at [k], whose tuples
    [(k1, ..., kn, leaf)] are the Branches in order.  For each Branch it
    forms the tuples of the elements at the positions [i < j], in order
    (six for [(k1, k2, k3, leaf)], as listed), concatenates them over all
    Branches and gives this one list to [set_hashing], whose [MinHash],
    fed with the Token of every pair, is the result. *)
Theorem tree_hashing_pools_branch_pairs (s : self) (k v : pyval) :
  unique_keys [(k, v)] ->
  let branches := flatten_tree [(k, v)] [] in
  let pairs := flat_map branch_pairs branches in
  (exists paths : list (list pyval * pyval),
     List.NoDup paths
     /\ (forall ks leaf,
           In (ks, leaf) paths <-> root_to_leaf [(k, v)] ks leaf)
     /\ (forall ks leaf, In (ks, leaf) paths -> exists ks', ks = k :: ks')
     /\ branches = map (fun p => VTuple (p.1 ++ [p.2])) paths
     /\ pairs
        = flat_map
            (fun p =>
               map (fun ij => VTuple [nth ij.1 (p.1 ++ [p.2]) VNone;
                                      nth ij.2 (p.1 ++ [p.2]) VNone])
                 (ordered_index_pairs (length (p.1 ++ [p.2]))))
            paths)
  /\ tree_hashing s (VDict [(k, v)])
     = (m ← set_hashing s (VList pairs); Ok (Sketch m))
  /\ tree_hashing s (VDict [(k, v)])
     = Ok (Sketch (fold_left update (map Token pairs) (MinHash (num_hash s))))
  /\ (forall branch, In branch branches -> exists items, branch = VTuple items)
  /\ (forall items,
        branch_pairs (VTuple items)
        = map (fun ij => VTuple [nth ij.1 items VNone; nth ij.2 items VNone])
            (ordered_index_pairs (length items))
        /\ length (branch_pairs (VTuple items))
           = (length items * (length items - 1) / 2)%nat)
  /\ (forall n i j, In (i, j) (ordered_index_pairs n) <-> (i < j < n)%nat)
  /\ (forall n, List.NoDup (ordered_index_pairs n))
  /\ (forall k1 k2 k3 leaf,
        branch_pairs (VTuple [k1; k2; k3; leaf])
        = [VTuple [k1; k2]; VTuple [k1; k3]; VTuple [k1; leaf];
           VTuple [k2; k3]; VTuple [k2; leaf]; VTuple [k3; leaf]]).
Proof.
  intros Hu branches pairs.
  split.
  { destruct (enumerates_value (VDict [(k, v)]) [(k, v)] eq_refl Hu)
      as (paths & Hnd & Hin & Hflat).
    exists paths. split; [exact Hnd |]. split; [exact Hin |].
    assert (Hbranches : branches = map (fun p => VTuple (p.1 ++ [p.2])) paths).
    { unfold branches. rewrite (Hflat []). reflexivity. }
    split; [| split; [exact Hbranches |]].
    - intros ks leaf Hp. apply Hin in Hp.
      apply root_to_leaf_head in Hp as (k' & ks' & -> & Hk').
      destruct Hk' as [<- | []]. now exists ks'.
    - unfold pairs. rewrite Hbranches, flat_map_after_map. reflexivity. }
  split; [apply tree_hashing_single_root |].
  split; [rewrite tree_hashing_single_root, set_hashing_list; reflexivity |].
  split; [intros branch; apply flatten_tree_tuples |].
  split.
  { intros items. split; [reflexivity |].
    unfold branch_pairs. rewrite length_map. apply length_ordered_index_pairs. }
  split; [intros n i j; apply in_ordered_index_pairs |].
  split; [apply NoDup_ordered_index_pairs |].
  reflexivity.
Qed.

(** C7.  A mapping with more than one top-level key makes [tree_hashing]
    raise "A tree has only 1 root node!"; so does [hash_data] of an
    encoder whose method is [tree_hashing].  Nothing is returned. *)
Theorem tree_hashing_rejects_many_roots (s : self) (d : dict) :
  (1 < length (dict_keys d))%nat ->
  tree_hashing s (VDict d) = Raise TreeOneRoot
  /\ StructureError TreeOneRoot
  /\ (structure_function s = method_tree_hashing ->
      hash_data s (VDict d) = Raise TreeOneRoot).
Proof.
  intros Hroots.
  assert (Htree : tree_hashing s (VDict d) = Raise TreeOneRoot).
  { unfold tree_hashing; simpl.
    destruct (Nat.eqb_spec (length (dict_keys d)) 0) as [E | _]; [lia |].
    destruct (Nat.ltb_spec 1 (length (dict_keys d))) as [_ | Hle]; [| lia].
    reflexivity. }
  split; [exact Htree | split; [reflexivity |]].
  intros Hm. unfold hash_data. rewrite Hm. exact Htree.
Qed.

(** C8.  On the empty mapping [tree_hashing] returns the empty list: it
    does not raise, and what it returns is no sketch.  So does [hash_data]
    of every encoder that [__init__] builds for the structure ['tree']. *)
Theorem tree_hashing_empty_mapping (s : self) :
  tree_hashing s (VDict []) = Ok EmptyList
  /\ (forall size w,
        exists enc : self,
          __init__ "tree" size w = Ok enc
          /\ hash_data enc (VDict []) = Ok EmptyList)
  /\ (forall m : MinHashT, tree_hashing s (VDict []) <> Ok (Sketch m))
  /\ (forall e, tree_hashing s (VDict []) <> Raise e).
Proof.
  split; [reflexivity |].
  split; [intros size w; eexists; split; reflexivity |].
  split; [intros m | intros e]; discriminate.
Qed.
(** ** Construction *)

Lemma structures_get structure :
  (In structure structure_kinds
   /\ exists f, table_get structures structure = Some f)
  \/ (~ In structure structure_kinds
      /\ table_get structures structure = None).
Proof.
  unfold structure_kinds, structures; cbn [table_get In].
  repeat match goal with
  | |- context [String.eqb structure ?k] =>
      destruct (String.eqb_spec structure k) as [-> | ?]
  end;
    try (left; split; [tauto | eexists; reflexivity]).
  right. split; [| reflexivity]. intuition congruence.
Qed.

Lemma weighted_set_options_recognized (w : option option_arg) :
  let arg := default (OptStr "None") w in
  (recognized_option w /\ is_False arg = false
   /\ exists name dim,
        w = Some (OptStr name)
        /\ table_get weighted_set_options name = Some dim
        /\ weighted_set_options_get arg = Some dim
        /\ 0 < dim <= 65536)
  \/ (~ recognized_option w
      /\ (is_False arg = true \/ weighted_set_options_get arg = None)).
Proof.
  unfold recognized_option, option_names.
  destruct w as [[name | b] |]; simpl.
  - 
    repeat match goal with
    | |- context [String.eqb name ?k] =>
        destruct (String.eqb_spec name k) as [-> | ?]
    end;
      try (left; split; [eexists; split; [| reflexivity]; tauto |];
           split; [reflexivity |]; do 2 eexists;
           split; [reflexivity |]; split; [reflexivity |];
           split; [reflexivity | lia]).
    right. split; [| now right].
    intros (name' & Hin & E). inversion E; subst. intuition congruence.
  - right. split.
    + intros (name' & _ & E). discriminate.
    + destruct b; [now right | now left].
  - right. split.
    + intros (name' & _ & E). discriminate.
    + now right.
Qed.

(** C6.  [__init__] takes no data and decides by its arguments alone: a
    structure that is none of the four names raises "Unsupported
    structure!"; ['weighted_set'] with a [weighted_option] that is omitted
    or is none of the three names raises one of the two exceptions of
    the weighted case; every other call returns the encoder. *)
Theorem init_validates_eagerly (structure : string) (size : Z)
    (w : option option_arg) :
  (~ In structure structure_kinds ->
   __init__ structure size w = Raise UnsupportedStructure
   /\ ConfigurationError UnsupportedStructure)
  /\ (structure = "weighted_set"%string -> ~ recognized_option w ->
      exists e, __init__ structure size w = Raise e /\ ConfigurationError e)
  /\ (In structure structure_kinds ->
      (structure = "weighted_set"%string -> recognized_option w) ->
      exists enc : self, __init__ structure size w = Ok enc).
Proof.
  unfold __init__.
  destruct (structures_get structure) as [(Hin & f & ->) | (Hout & ->)];
    (split; [| split]).
  - intros Hnot. contradiction.
  - intros -> Hw. cbn [String.eqb Ascii.eqb Bool.eqb].
    destruct (weighted_set_options_recognized w)
      as [(Hrec & _) | (_ & [-> | Hnone])]; [contradiction | |].
    + eexists; split; [reflexivity | right; now left].
    + destruct (is_False _).
      * eexists; split; [reflexivity | right; now left].
      * rewrite Hnone. eexists; split; [reflexivity | right; now right].
  - intros _ Hw. destruct (String.eqb_spec structure "weighted_set") as [E | _].
    + destruct (weighted_set_options_recognized w)
        as [(_ & -> & name & dim & _ & _ & -> & _) | (Hnot & _)];
        [eexists; reflexivity | now specialize (Hw E)].
    + eexists; reflexivity.
  - intros _. split; [reflexivity | now left].
  - intros -> _. exfalso. apply Hout. unfold structure_kinds; simpl; tauto.
  - intros Hin. contradiction.
Qed.

(** C10.  For a structure other than ['weighted_set'], [__init__] returns
    the same thing whatever [weighted_option] is: for ['set'],
    ['sequence'] and ['tree'] it returns an encoder, and two encoders
    built with the same structure and size give the same result on every
    input. *)
Theorem weighted_option_ignored (structure : string) (size : Z)
    (w1 w2 : option option_arg) :
  structure <> "weighted_set"%string ->
  __init__ structure size w1 = __init__ structure size w2
  /\ (In structure ["set"; "sequence"; "tree"]%string ->
      exists enc : self, __init__ structure size w1 = Ok enc)
  /\ (forall enc1 enc2 : self,
        __init__ structure size w1 = Ok enc1 ->
        __init__ structure size w2 = Ok enc2 ->
        forall data, hash_data enc1 data = hash_data enc2 data).
Proof.
  intros Hkind.
  assert (Hsame : __init__ structure size w1 = __init__ structure size w2).
  { unfold __init__. destruct (table_get structures structure); [| reflexivity].
    destruct (String.eqb_spec structure "weighted_set"); [contradiction |].
    reflexivity. }
  split; [exact Hsame | split].
  - intros Hin. unfold __init__.
    destruct (structures_get structure) as [(_ & f & ->) | (Hout & _)].
    + destruct (String.eqb_spec structure "weighted_set"); [contradiction |].
      eexists; reflexivity.
    + exfalso. apply Hout. unfold structure_kinds; simpl in *; tauto.
  - intros enc1 enc2 H1 H2 data. rewrite Hsame, H2 in H1.
    inversion H1; reflexivity.
Qed.
End encoders.

(** ** [put] on the dense vector *)

Section put.
Context `{Python}.

Lemma traverse_length {A B} (f : A -> result B) (l : list A) (l' : list B) :
  traverse f l = Ok l' -> length l' = length l.
Proof.
  revert l'. induction l as [|x l IH]; intros l'; simpl.
  - intros E; inversion E; reflexivity.
  - destruct (f x) as [y | e]; simpl; [| discriminate].
    destruct (traverse f l) as [ys | e]; simpl; [| discriminate].
    intros E; inversion E; subst. simpl. f_equal. now apply IH.
Qed.

Lemma traverse_raises {A B} (f : A -> result B) (l : list A) (x : A) e :
  In x l -> f x = Raise e -> exists e', traverse f l = Raise e'.
Proof.
  intros Hin Hx. induction l as [|y l IH]; [contradiction |]. simpl.
  destruct Hin as [-> | Hin].
  - rewrite Hx. eexists; reflexivity.
  - destruct (f y) as [z | e1]; simpl; [| eexists; reflexivity].
    destruct (IH Hin) as (e' & ->). eexists; reflexivity.
Qed.

Lemma intp_cases i :
  (- 2 ^ 63 <= i < 2 ^ 63 /\ intp i = Ok i)
  \/ (~ (- 2 ^ 63 <= i < 2 ^ 63) /\ intp i = Raise OverflowError).
Proof.
  unfold intp.
  destruct (Z.leb_spec (- 2 ^ 63) i); destruct (Z.ltb_spec i (2 ^ 63));
    cbn [andb]; [left | right | right | right]; (split; [lia | reflexivity]).
Qed.

Lemma traverse_in_ok {A B} (f : A -> result B) (l : list A) (r : list B)
    (x : A) :
  traverse f l = Ok r -> In x l -> exists y, f x = Ok y /\ In y r.
Proof.
  revert r. induction l as [|a l IH]; intros r Hr Hin; [contradiction |].
  cbn [traverse] in Hr.
  destruct (f a) as [b | e] eqn:Ha; [| discriminate Hr].
  destruct (traverse f l) as [bs | e]; [| discriminate Hr].
  inversion Hr; subst r. destruct Hin as [<- | Hin].
  - exists b. split; [exact Ha | now left].
  - destruct (IH bs eq_refl Hin) as (y & Hy & Hyin).
    exists y. split; [exact Hy | now right].
Qed.

Lemma traverse_intp (ind : list Z) :
  traverse intp ind = Ok ind \/ traverse intp ind = Raise OverflowError.
Proof.
  induction ind as [|i ind IH]; cbn [traverse]; [now left |].
  destruct (intp_cases i) as [(_ & ->) | (_ & ->)]; [| right; reflexivity].
  destruct IH as [-> | ->]; [left | right]; reflexivity.
Qed.

Lemma traverse_intp_small (ind : list Z) :
  Forall (fun i => - 2 ^ 63 <= i < 2 ^ 63) ind -> traverse intp ind = Ok ind.
Proof.
  induction 1 as [|i ind Hi _ IH]; cbn [traverse]; [reflexivity |].
  destruct (intp_cases i) as [(_ & ->) | (Hbad & _)]; [| lia].
  rewrite IH. reflexivity.
Qed.

Lemma wrap_index_range n i : - n <= i < n -> 0 <= wrap_index n i < n.
Proof. unfold wrap_index. destruct (Z.ltb_spec i 0); lia. Qed.

Lemma wrap_index_nonneg n i : 0 <= i -> wrap_index n i = i.
Proof. unfold wrap_index. destruct (Z.ltb_spec i 0); lia. Qed.

(** Indices within [-n, n) are all written, the last write at a
    position staying. *)
Lemma put_loop_accepts (ivs : list (Z * cell)) :
  forall a : list cell,
    Forall (fun iv => - Z.of_nat (length a) <= iv.1 < Z.of_nat (length a)) ivs ->
    exists a',
      put_loop a ivs = Ok a'
      /\ length a' = length a
      /\ (forall j c, 0 <= j -> a !! Z.to_nat j = Some c ->
            a' !! Z.to_nat j
            = Some (last_write_from c (wrapped (Z.of_nat (length a)) ivs) j)).
Proof.
  induction ivs as [|[i x] ivs IH]; intros a Hall.
  - exists a. split; [reflexivity | split; [reflexivity |]].
    intros j c _ Hj. exact Hj.
  - apply Forall_cons in Hall as [Hi Hall]. simpl in Hi.
    cbn [put_loop].
    destruct (Z.leb_spec (- Z.of_nat (length a)) i); [| lia].
    destruct (Z.ltb_spec i (Z.of_nat (length a))); [| lia].
    cbn [andb].
    pose proof (wrap_index_range _ _ Hi) as Hw.
    set (a1 := <[Z.to_nat (wrap_index (Z.of_nat (length a)) i) := x]> a).
    assert (Hlen1 : length a1 = length a) by apply length_insert.
    destruct (IH a1) as (a' & Hput & Hlen & Hcells);
      [now rewrite Hlen1 |].
    exists a'. split; [exact Hput | split; [congruence |]].
    intros j c Hj Hc. rewrite Hlen1 in Hcells.
    unfold wrapped, last_write_from; cbn [map fold_left fst snd].
    apply Hcells; [exact Hj |]. subst a1.
    destruct (Z.eqb_spec (wrap_index (Z.of_nat (length a)) i) j) as [-> | Hne].
    + apply list_lookup_insert_eq. eapply lookup_lt_Some; exact Hc.
    + rewrite list_lookup_insert_ne; [exact Hc | lia].
Qed.

(** An index outside [-n, n) stops the loop. *)
Lemma put_loop_raises (ivs : list (Z * cell)) :
  forall a : list cell,
    Exists (fun iv => ~ (- Z.of_nat (length a) <= iv.1 < Z.of_nat (length a)))
      ivs ->
    put_loop a ivs = Raise IndexError.
Proof.
  induction ivs as [|[i x] ivs IH]; intros a Hex.
  - inversion Hex.
  - cbn [put_loop].
    destruct (Z.leb_spec (- Z.of_nat (length a)) i);
      destruct (Z.ltb_spec i (Z.of_nat (length a))); cbn [andb];
      try reflexivity.
    apply IH. rewrite length_insert.
    apply Exists_cons in Hex as [Hbad | Hex]; [simpl in Hbad; lia | exact Hex].
Qed.

Lemma zeros_length dim : 0 <= dim -> Z.of_nat (length (zeros dim)) = dim.
Proof. intros Hdim. unfold zeros. rewrite length_replicate. lia. Qed.

Lemma zeros_lookup dim j :
  0 <= j < dim -> zeros dim !! Z.to_nat j = Some cell_zero.
Proof.
  intros Hj. unfold zeros. apply lookup_replicate_2. lia.
Qed.
End put.

(** ** The weighted-set encoder *)

Section weighted.
Context `{Datasketch}.
Import SimilarityHashing.

Lemma in_combine_exists {A B} (l : list A) (l' : list B) (x : A) :
  length l = length l' -> In x l -> exists y, In (x, y) (combine l l').
Proof.
  revert l'. induction l as [|a l IH]; intros [|b l'] Hlen Hin;
    try contradiction; try discriminate.
  destruct Hin as [-> | Hin].
  - exists b. now left.
  - destruct (IH l') as (y & Hy); [now inversion Hlen | exact Hin |].
    exists y. now right.
Qed.

Lemma put_zeros_accepts dim (ind : list Z) (v : list pyval) (ws : list cell) :
  0 <= dim < 2 ^ 63 ->
  traverse as_cell v = Ok ws ->
  Forall (fun i => - dim <= i < dim) ind ->
  exists vector : list cell,
    put (zeros dim) ind v = Ok vector
    /\ length vector = Z.to_nat dim
    /\ (forall j, 0 <= j < dim ->
          vector !! Z.to_nat j
          = Some (last_write (wrapped dim (combine ind ws)) j)).
Proof.
  intros Hdim Hws Hind. unfold put.
  rewrite traverse_intp_small
    by (eapply Forall_impl; [exact Hind | simpl; intros; lia]).
  rewrite Hws. cbn [mbind result_bind].
  pose proof (zeros_length dim (proj1 Hdim)) as Hlen.
  destruct (put_loop_accepts (combine ind ws) (zeros dim))
    as (vector & Hput & Hlenv & Hcells).
  { rewrite Hlen. apply List.Forall_forall. intros [i x] Hin; simpl.
    apply in_combine_l in Hin. rewrite List.Forall_forall in Hind. now apply Hind. }
  exists vector. split; [exact Hput | split; [rewrite Hlenv; lia |]].
  intros j Hj. rewrite Hlen in Hcells.
  apply Hcells; [lia | now apply zeros_lookup].
Qed.

Lemma put_zeros_raises dim (ind : list Z) (v : list pyval) (i : Z) :
  0 <= dim -> length ind = length v -> In i ind -> ~ (- dim <= i < dim) ->
  exists e,
    put (zeros dim) ind v = Raise e
    /\ (forall ws, traverse as_cell v = Ok ws -> out_of_range_error e).
Proof.
  intros Hdim Hlen Hin Hbad. unfold put.
  destruct (traverse_intp ind) as [-> | ->]; cbn [mbind result_bind].
  - destruct (traverse as_cell v) as [ws | e] eqn:Hws; cbn [mbind result_bind].
    + exists IndexError. split; [| intros _ _; now left].
      apply put_loop_raises. apply List.Exists_exists.
      destruct (in_combine_exists ind ws i) as (x & Hx);
        [apply traverse_length in Hws; congruence | exact Hin |].
      exists (i, x). split; [exact Hx |]. simpl.
      now rewrite zeros_length.
    + exists e. split; [reflexivity | intros ws E; discriminate].
  - exists OverflowError. split; [reflexivity | intros _ _; now right].
Qed.

Lemma init_weighted_set size w (enc : self) :
  __init__ "weighted_set" size w = Ok enc ->
  exists name dim,
    w = Some (OptStr name)
    /\ table_get weighted_set_options name = Some dim
    /\ 0 < dim <= 65536
    /\ structure_function enc = method_weighted_set_hashing
    /\ weighted_set_option enc = Some dim
    /\ weighted_hash_gen enc = Some (WeightedMinHashGenerator dim size).
Proof.
  unfold __init__. cbn [table_get structures String.eqb Ascii.eqb Bool.eqb].
  destruct (weighted_set_options_recognized w)
    as [(_ & -> & name & dim & -> & Hget & -> & Hdim) | (_ & [-> | Hnone])].
  - intros E; inversion E; subst; simpl. exists name, dim. tauto.
  - discriminate.
  - destruct (is_False _); [discriminate |]. rewrite Hnone. discriminate.
Qed.

Lemma weighted_set_hashing_steps (s : self) dim gen (d : dict) :
  weighted_set_option s = Some dim -> weighted_hash_gen s = Some gen ->
  weighted_set_hashing s (VDict d)
  = (ind ← traverse py_int (dict_keys d);
     vector ← put (zeros dim) ind (dict_values d);
     Ok (minhash gen vector)).
Proof.
  intros Hdim Hgen. unfold weighted_set_hashing. rewrite Hdim, Hgen.
  reflexivity.
Qed.

Lemma keys_values_length (d : dict) :
  length (dict_keys d) = length (dict_values d).
Proof. unfold dict_keys, dict_values. now rewrite !length_map. Qed.
Lemma wrapped_nonneg n (ivs : list (Z * cell)) :
  Forall (fun iv => 0 <= iv.1) ivs -> wrapped n ivs = ivs.
Proof.
  induction 1 as [|[i x] ivs Hi _ IH]; [reflexivity |].
  unfold wrapped in *; cbn [map fst snd].
  rewrite IH, wrap_index_nonneg by exact Hi. reflexivity.
Qed.

Lemma hash_data_weighted (s : self) (data : pyval) :
  structure_function s = method_weighted_set_hashing ->
  hash_data s data = (w ← weighted_set_hashing s data; Ok (WeightedSketch w)).
Proof. intros Hm. unfold hash_data. now rewrite Hm. Qed.

(** C5.  An encoder built for ['weighted_set'] with an option of
    dimension [dim] keeps the generator
    [WeightedMinHashGenerator(dim, sample_size=size)].  On a [dict] whose
    keys parse to indices in [[0, dim)], with weights that convert, it
    starts from [dim] zeros, ends with a vector of length [dim] that holds
    at every index the weight written there last, zero when none was, and
    returns [minhash] of that generator on that vector. *)
Theorem weighted_set_hashing_dense_vector (size : Z) (w : option option_arg)
    (enc : self) (dim : Z) (d : dict) (ind : list Z) (ws : list cell) :
  __init__ "weighted_set" size w = Ok enc ->
  weighted_set_option enc = Some dim ->
  traverse py_int (dict_keys d) = Ok ind ->
  Forall (fun i => 0 <= i < dim) ind ->
  traverse as_cell (dict_values d) = Ok ws ->
  (exists name, w = Some (OptStr name)
                /\ table_get weighted_set_options name = Some dim)
  /\ weighted_hash_gen enc = Some (WeightedMinHashGenerator dim size)
  /\ zeros dim = replicate (Z.to_nat dim) cell_zero
  /\ exists vector : list cell,
       hash_data enc (VDict d)
       = Ok (WeightedSketch (minhash (WeightedMinHashGenerator dim size) vector))
       /\ length vector = Z.to_nat dim
       /\ (forall j, 0 <= j < dim ->
             vector !! Z.to_nat j = Some (last_write (combine ind ws) j)).
Proof.
  intros Hinit Hopt Hind Hrange Hws.
  destruct (init_weighted_set size w enc Hinit)
    as (name & dim' & Hw & Hget & Hdim & Hm & Hopt' & Hgen).
  assert (dim' = dim) by congruence. subst dim'.
  split; [exists name; tauto |]. split; [exact Hgen |].
  split; [reflexivity |].
  destruct (put_zeros_accepts dim ind (dict_values d) ws)
    as (vector & Hput & Hlen & Hcells);
    [lia | exact Hws
     | eapply Forall_impl; [exact Hrange | simpl; intros; lia] |].
  exists vector. split; [| split; [exact Hlen |]].
  - rewrite (hash_data_weighted enc _ Hm).
    rewrite (weighted_set_hashing_steps enc dim _ d Hopt Hgen).
    rewrite Hind; cbn [mbind result_bind]. rewrite Hput. reflexivity.
  - intros j Hj. rewrite (Hcells j Hj). do 2 f_equal.
    apply wrapped_nonneg. apply List.Forall_forall. intros [i x] Hin; simpl.
    apply in_combine_l in Hin.
    rewrite List.Forall_forall in Hrange. apply Hrange in Hin. lia.
Qed.

(** C4, amended.  For an encoder built for ['weighted_set'] with
    dimension [dim]: a key that [int] rejects makes the call raise; a key
    whose index is outside [[-dim, dim)] makes the call raise, with
    [IndexError] or [OverflowError] when all keys parse and the weights
    convert; and when every index is in [[-dim, dim)] and the weights
    convert the call returns, an index below zero counting from the end
    of the vector. *)
Theorem weighted_set_hashing_rejects (size : Z) (w : option option_arg)
    (enc : self) (dim : Z) (d : dict) :
  __init__ "weighted_set" size w = Ok enc ->
  weighted_set_option enc = Some dim ->
  (forall k e, In k (dict_keys d) -> py_int k = Raise e ->
     exists e', hash_data enc (VDict d) = Raise e')
  /\ (forall k i,
        In k (dict_keys d) -> py_int k = Ok i -> ~ (- dim <= i < dim) ->
        exists e,
          hash_data enc (VDict d) = Raise e
          /\ (forall ind ws,
                traverse py_int (dict_keys d) = Ok ind ->
                traverse as_cell (dict_values d) = Ok ws ->
                out_of_range_error e))
  /\ (forall ind i,
        traverse py_int (dict_keys d) = Ok ind ->
        In i ind -> ~ (- dim <= i < dim) ->
        exists e,
          hash_data enc (VDict d) = Raise e
          /\ (forall ws, traverse as_cell (dict_values d) = Ok ws ->
                out_of_range_error e))
  /\ (forall ind ws,
        traverse py_int (dict_keys d) = Ok ind ->
        traverse as_cell (dict_values d) = Ok ws ->
        Forall (fun i => - dim <= i < dim) ind ->
        exists vector : list cell,
          hash_data enc (VDict d)
          = Ok (WeightedSketch
                  (minhash (WeightedMinHashGenerator dim size) vector))
          /\ (forall j, 0 <= j < dim ->
                vector !! Z.to_nat j
                = Some (last_write (wrapped dim (combine ind ws)) j))).
Proof.
  intros Hinit Hopt.
  destruct (init_weighted_set size w enc Hinit)
    as (name & dim' & Hw & Hget & Hdim & Hm & Hopt' & Hgen).
  assert (dim' = dim) by congruence. subst dim'.
  rewrite (hash_data_weighted enc _ Hm).
  rewrite (weighted_set_hashing_steps enc dim _ d Hopt Hgen).
  assert (Hbadindex : forall ind i,
            traverse py_int (dict_keys d) = Ok ind ->
            In i ind -> ~ (- dim <= i < dim) ->
            exists e,
              (ind ← traverse py_int (dict_keys d);
               vector ← put (zeros dim) ind (dict_values d);
               Ok (minhash (WeightedMinHashGenerator dim size) vector))
              ≫= (fun v => Ok (WeightedSketch v)) = Raise e
              /\ (forall ws, traverse as_cell (dict_values d) = Ok ws ->
                    out_of_range_error e)).
  { intros ind i Hind Hin Hbad. rewrite Hind; cbn [mbind result_bind].
    destruct (put_zeros_raises dim ind (dict_values d) i) as (e & Hput & He);
      [lia | | exact Hin | exact Hbad |].
    + apply traverse_length in Hind. rewrite Hind. apply keys_values_length.
    + exists e. rewrite Hput. split; [reflexivity | exact He]. }
  split; [| split; [| split]].
  - intros k e Hin Hk.
    destruct (traverse_raises py_int _ k e Hin Hk) as (e' & ->).
    exists e'. reflexivity.
  - intros k i Hin Hk Hbad.
    destruct (traverse py_int (dict_keys d)) as [ind | e0] eqn:Hind.
    + destruct (traverse_in_ok py_int _ ind k Hind Hin) as (i' & Hk' & Hi').
      assert (i' = i) by congruence. subst i'.
      destruct (Hbadindex ind i eq_refl Hi' Hbad) as (e & Hcall & He).
      exists e. split; [exact Hcall |].
      intros ind0 ws _ Hws. exact (He ws Hws).
    + exists e0. split; [reflexivity |]. intros ind0 ws E. discriminate E.
  - exact Hbadindex.
  - intros ind ws Hind Hws Hrange. rewrite Hind; cbn [mbind result_bind].
    destruct (put_zeros_accepts dim ind (dict_values d) ws)
      as (vector & Hput & _ & Hcells); [lia | exact Hws | exact Hrange |].
    exists vector. rewrite Hput. split; [reflexivity | exact Hcells].
Qed.
End weighted.

(** ** The statements on the script's own inputs *)

Section examples.
Import SimilarityHashing Reference.

Ltac solve_unique_keys :=
  constructor;
  [ repeat (constructor; [simpl; intuition discriminate |]); constructor
  | let k := fresh "k" in
    let d' := fresh "d'" in
    let Hin := fresh "Hin" in
    intros k d' Hin; simpl in Hin;
    repeat (destruct Hin as [Hin | Hin];
            [first [discriminate Hin
                   | injection Hin as _ <-; solve_unique_keys] |]);
    contradiction ].

Lemma demo_tree_unique_keys : unique_keys demo_tree.
Proof. unfold demo_tree. solve_unique_keys. Defined.

Lemma flatten_tree_one_branch_per_path_witness :
  unique_keys demo_tree
  /\ flatten_tree demo_tree []
     = [VTuple [VInt 1; VInt 9; VInt 10];
        VTuple [VInt 1; VInt 2; VInt 3; VInt 6];
        VTuple [VInt 1; VInt 4; VInt 5; VInt 7; VInt 8]]
  /\ exists paths : list (list pyval * pyval),
       List.NoDup paths
       /\ (forall ks leaf, In (ks, leaf) paths <-> root_to_leaf demo_tree ks leaf)
       /\ (forall keys,
             flatten_tree demo_tree keys
             = map (fun p => VTuple (keys ++ p.1 ++ [p.2])) paths).
Proof.
  split; [exact demo_tree_unique_keys |].
  split; [reflexivity |].
  exact (proj1 (flatten_tree_one_branch_per_path demo_tree
                  demo_tree_unique_keys)).
Defined.
Lemma set_hashing_feeds_all_tokens_witness :
  py_iter demo_set = Ok [VInt 1; VInt 2; VInt 3]
  /\ set_hashing tree_encoder demo_set
     = Ok (fold_left update (map Token [VInt 1; VInt 2; VInt 3])
             (MinHash 4096)).
Proof.
  split; [reflexivity |].
  exact (proj1 (set_hashing_feeds_all_tokens tree_encoder demo_set
                  [VInt 1; VInt 2; VInt 3] eq_refl)).
Defined.

Lemma sequence_hashing_ordered_pairs_witness :
  py_iter demo_sequence = Ok [VInt 1; VInt 2; VInt 3]
  /\ sequence_hashing tree_encoder demo_sequence
     = set_hashing tree_encoder
         (VList [VTuple [VInt 1; VInt 2]; VTuple [VInt 1; VInt 3];
                 VTuple [VInt 2; VInt 3]]).
Proof.
  split; [reflexivity |].
  exact (proj1 (sequence_hashing_ordered_pairs tree_encoder demo_sequence
                  [VInt 1; VInt 2; VInt 3] eq_refl)).
Defined.

Lemma tree_hashing_rejects_many_roots_witness :
  (1 < length (dict_keys two_roots))%nat
  /\ tree_hashing tree_encoder (VDict two_roots) = Raise TreeOneRoot.
Proof.
  assert (Hroots : (1 < length (dict_keys two_roots))%nat) by (simpl; lia).
  split; [exact Hroots |].
  exact (proj1 (tree_hashing_rejects_many_roots tree_encoder two_roots Hroots)).
Defined.

Lemma weighted_option_ignored_witness :
  "tree"%string <> "weighted_set"%string
  /\ __init__ "tree" 4096 None = __init__ "tree" 4096 (Some (OptStr "bogus")).
Proof.
  assert (Hkind : "tree"%string <> "weighted_set"%string) by discriminate.
  split; [exact Hkind |].
  exact (proj1 (weighted_option_ignored "tree" 4096 None
                  (Some (OptStr "bogus")) Hkind)).
Defined.

Lemma init_validates_eagerly_witness :
  ~ In "graph"%string structure_kinds
  /\ __init__ "graph" 4096 None = Raise UnsupportedStructure.
Proof.
  assert (Hkind : ~ In "graph"%string structure_kinds)
    by (unfold structure_kinds; simpl; intuition discriminate).
  split; [exact Hkind |].
  exact (proj1 (proj1 (init_validates_eagerly "graph" 4096 None) Hkind)).
Defined.

Lemma demo_weighted_in_range :
  Forall (fun i => 0 <= i < 10) [1; 2; 4].
Proof. repeat constructor; lia. Defined.

Lemma weighted_set_hashing_dense_vector_witness :
  __init__ "weighted_set" 64 (Some (OptStr "sfc")) = Ok sfc_encoder
  /\ traverse py_int (dict_keys demo_weighted_set) = Ok [1; 2; 4]
  /\ traverse as_cell (dict_values demo_weighted_set) = Ok [1; 2; 3]
  /\ exists vector : list cell,
       hash_data sfc_encoder (VDict demo_weighted_set)
       = Ok (WeightedSketch (minhash (WeightedMinHashGenerator 10 64) vector))
       /\ length vector = Z.to_nat 10
       /\ (forall j, 0 <= j < 10 ->
             vector !! Z.to_nat j
             = Some (last_write (combine [1; 2; 4] [1; 2; 3]) j)).
Proof.
  split; [reflexivity |]. split; [reflexivity |]. split; [reflexivity |].
  exact (proj2 (proj2 (proj2
           (weighted_set_hashing_dense_vector 64 (Some (OptStr "sfc"))
              sfc_encoder 10 demo_weighted_set [1; 2; 4] [1; 2; 3]
              eq_refl eq_refl eq_refl demo_weighted_in_range eq_refl)))).
Defined.

Lemma weighted_set_hashing_rejects_witness :
  __init__ "weighted_set" 64 (Some (OptStr "sfc")) = Ok sfc_encoder
  /\ weighted_set_option sfc_encoder = Some 10
  /\ py_int (VStr "10") = Ok 10
  /\ ~ (- 10 <= 10 < 10)
  /\ exists e,
       hash_data sfc_encoder
         (VDict [(VStr "10", VInt 1); (VStr "x", VInt 2)]) = Raise e
       /\ (forall ind ws,
             traverse py_int
               (dict_keys [(VStr "10", VInt 1); (VStr "x", VInt 2)]) = Ok ind ->
             traverse as_cell
               (dict_values [(VStr "10", VInt 1); (VStr "x", VInt 2)]) = Ok ws ->
             out_of_range_error e).
Proof.
  assert (Hbad : ~ (- 10 <= 10 < 10)) by lia.
  split; [reflexivity |]. split; [reflexivity |]. split; [reflexivity |].
  split; [exact Hbad |].
  exact (proj1 (proj2
           (weighted_set_hashing_rejects 64 (Some (OptStr "sfc")) sfc_encoder
              10 [(VStr "10", VInt 1); (VStr "x", VInt 2)] eq_refl eq_refl))
           (VStr "10") 10 (or_introl eq_refl) eq_refl Hbad).
Defined.

(** C4 as stated fails: the key ['-1'] parses to the index [-1], which
    is outside [[0, 10)], and the call returns the sketch of the vector
    whose last cell holds the weight. *)
Lemma weighted_set_hashing_negative_index_accepted :
  __init__ "weighted_set" 64 (Some (OptStr "sfc")) = Ok sfc_encoder
  /\ weighted_set_option sfc_encoder = Some 10
  /\ In (VStr "-1") (dict_keys negative_key)
  /\ py_int (VStr "-1") = Ok (-1)
  /\ ~ (0 <= -1 < 10)
  /\ hash_data sfc_encoder (VDict negative_key)
     = Ok (WeightedSketch ((10, 64), [0; 0; 0; 0; 0; 0; 0; 0; 0; 5]))
  /\ ~ (exists e, hash_data sfc_encoder (VDict negative_key) = Raise e).
Proof.
  split; [reflexivity |]. split; [reflexivity |].
  split; [now left |]. split; [reflexivity |].
  split; [lia |]. split; [reflexivity |].
  intros (e & He). discriminate He.
Qed.

(** The same calls on the inputs at the edge of the range. *)
Example weighted_set_hashing_index_dim :
  hash_data sfc_encoder (VDict [(VStr "10", VInt 5)]) = Raise IndexError.
Proof. reflexivity. Qed.

Example weighted_set_hashing_index_below :
  hash_data sfc_encoder (VDict [(VStr "-11", VInt 5)]) = Raise IndexError.
Proof. reflexivity. Qed.

Example weighted_set_hashing_key_not_integer :
  hash_data sfc_encoder (VDict [(VStr "x", VInt 5)]) = Raise ValueError.
Proof. reflexivity. Qed.

Example tree_hashing_demo_branches :
  flatten_tree demo_tree []
  = [VTuple [VInt 1; VInt 9; VInt 10];
     VTuple [VInt 1; VInt 2; VInt 3; VInt 6];
     VTuple [VInt 1; VInt 4; VInt 5; VInt 7; VInt 8]].
Proof. reflexivity. Qed.
Lemma tree_hashing_pools_branch_pairs_witness :
  unique_keys demo_tree
  /\ tree_hashing tree_encoder (VDict demo_tree)
     = Ok (Sketch (fold_left update
                     (map Token
                        (flat_map branch_pairs (flatten_tree demo_tree [])))
                     (MinHash 4096)))
  /\ exists paths : list (list pyval * pyval),
       List.NoDup paths
       /\ (forall ks leaf,
             In (ks, leaf) paths <-> root_to_leaf demo_tree ks leaf)
       /\ flatten_tree demo_tree []
          = map (fun p => VTuple (p.1 ++ [p.2])) paths.
Proof.
  split; [exact demo_tree_unique_keys |].
  destruct (tree_hashing_pools_branch_pairs tree_encoder (VInt 1)
              (VDict [(VInt 9, VInt 10);
                      (VInt 2, VDict [(VInt 3, VInt 6)]);
                      (VInt 4, VDict [(VInt 5, VDict [(VInt 7, VInt 8)])])])
              demo_tree_unique_keys)
    as ((paths & Hnd & Hin & _ & Hbranches & _) & _ & Hsketch & _).
  split; [exact Hsketch |].
  exists paths. split; [exact Hnd | split; [exact Hin | exact Hbranches]].
Defined.

(** The pairs of the script's tree: three, six and ten for its Branches. *)
Example tree_hashing_demo_pairs :
  flat_map branch_pairs (flatten_tree demo_tree [])
  = [VTuple [VInt 1; VInt 9]; VTuple [VInt 1; VInt 10];
     VTuple [VInt 9; VInt 10];
     VTuple [VInt 1; VInt 2]; VTuple [VInt 1; VInt 3]; VTuple [VInt 1; VInt 6];
     VTuple [VInt 2; VInt 3]; VTuple [VInt 2; VInt 6]; VTuple [VInt 3; VInt 6];
     VTuple [VInt 1; VInt 4]; VTuple [VInt 1; VInt 5]; VTuple [VInt 1; VInt 7];
     VTuple [VInt 1; VInt 8]; VTuple [VInt 4; VInt 5]; VTuple [VInt 4; VInt 7];
     VTuple [VInt 4; VInt 8]; VTuple [VInt 5; VInt 7]; VTuple [VInt 5; VInt 8];
     VTuple [VInt 7; VInt 8]].
Proof. reflexivity. Qed.

Example tree_hashing_demo_tokens :
  exists tokens,
    tree_hashing tree_encoder (VDict demo_tree) = Ok (Sketch (4096, tokens))
    /\ length tokens = 19%nat.
Proof. eexists. split; reflexivity. Qed.

(** A key out of range next to a key that [int] rejects. *)
Example weighted_set_hashing_mixed_keys :
  hash_data sfc_encoder (VDict [(VStr "10", VInt 1); (VStr "x", VInt 2)])
  = Raise ValueError.
Proof. reflexivity. Qed.
End examples.

(** * Further properties of the code *)

(** ** [flatten_tree]: the accumulator, the items, the leaves *)

Lemma item_branches_prefix_value v :
  forall d, v = VDict d ->
  forall keys,
    flatten_tree d keys
    = map (fun b => VTuple (keys ++ SimilarityHashing.tuple_items b))
        (flatten_tree d []).
Proof.
  induction v as [| | | | | | d0 IH] using pyval_dict_ind;
    intros d E; try discriminate.
  inversion E; subst d0. clear E.
  induction d as [|[k v] d IHd]; intros keys.
  - reflexivity.
  - rewrite !flatten_tree_cons, map_app.
    rewrite (IHd (fun k' v' Hin => IH k' v' (or_intror Hin)) keys). f_equal.
    unfold item_branches, flatten_step.
    destruct v as [| n | s | xs | xs | xs | d']; try reflexivity.
    cbn [app].
    rewrite (IH k (VDict d') (or_introl eq_refl) d' eq_refl (keys ++ [k])).
    rewrite (IH k (VDict d') (or_introl eq_refl) d' eq_refl [k]).
    rewrite map_map. apply map_ext. intros b. cbn [SimilarityHashing.tuple_items].
    now rewrite <- app_assoc.
Qed.

(** X1.  The accumulator only prefixes: the Branches of
    [flatten_tree d keys] are those of [flatten_tree d []], in the same
    order, each with [keys] put in front. *)
Theorem flatten_tree_prefix (d : dict) (keys : list pyval) :
  flatten_tree d keys
  = map (fun b => VTuple (keys ++ SimilarityHashing.tuple_items b))
      (flatten_tree d []).
Proof. exact (item_branches_prefix_value (VDict d) d eq_refl keys). Qed.

Lemma flatten_tree_app_items (d1 d2 : dict) (keys : list pyval) :
  flatten_tree (d1 ++ d2) keys = flatten_tree d1 keys ++ flatten_tree d2 keys.
Proof.
  induction d1 as [|kv d1 IH]; [reflexivity |].
  cbn [app]. rewrite !flatten_tree_cons, IH. apply app_assoc.
Qed.

(** X2.  The Branches follow the items: the Branches of a [dict] whose
    items are those of [d1] followed by those of [d2] are the Branches of
    [d1] followed by the Branches of [d2], also below a common key. *)
Theorem flatten_tree_concatenates (d1 d2 : dict) (k : pyval)
    (keys : list pyval) :
  flatten_tree (d1 ++ d2) keys = flatten_tree d1 keys ++ flatten_tree d2 keys
  /\ flatten_tree [(k, VDict (d1 ++ d2))] keys
     = flatten_tree [(k, VDict d1)] keys ++ flatten_tree [(k, VDict d2)] keys.
Proof.
  split; [apply flatten_tree_app_items |].
  rewrite !flatten_tree_cons, !flatten_tree_nil, !app_nil_r.
  unfold item_branches, flatten_step; cbn [app].
  apply flatten_tree_app_items.
Qed.

Lemma leaf_count_cons k v (d : dict) :
  leaf_count ((k, v) :: d) = (leaf_count_of v + leaf_count d)%nat.
Proof. reflexivity. Qed.

Lemma flatten_tree_length_value v :
  forall d, v = VDict d ->
  forall keys, length (flatten_tree d keys) = leaf_count d.
Proof.
  induction v as [| | | | | | d0 IH] using pyval_dict_ind;
    intros d E; try discriminate.
  inversion E; subst d0. clear E.
  induction d as [|[k v] d IHd]; intros keys.
  - reflexivity.
  - rewrite flatten_tree_cons, length_app, leaf_count_cons.
    rewrite (IHd (fun k' v' Hin => IH k' v' (or_intror Hin)) keys). f_equal.
    unfold item_branches, flatten_step.
    destruct v as [| n | s | xs | xs | xs | d']; try reflexivity.
    cbn [app].
    exact (IH k (VDict d') (or_introl eq_refl) d' eq_refl (keys ++ [k])).
Qed.

Lemma flatten_tree_length (d : dict) (keys : list pyval) :
  length (flatten_tree d keys) = leaf_count d.
Proof. exact (flatten_tree_length_value (VDict d) d eq_refl keys). Qed.

(** X3.  [flatten_tree] returns as many Branches as the mapping has
    values that are not a [dict], whatever the keys are (repeated or
    not); a nested [dict] without such a value, the empty one first,
    adds no Branch. *)
Theorem flatten_tree_counts_leaves (d : dict) (keys : list pyval) :
  length (flatten_tree d keys) = leaf_count d
  /\ (leaf_count d = 0%nat <-> flatten_tree d keys = [])
  /\ (forall k, flatten_tree ((k, VDict []) :: d) keys = flatten_tree d keys).
Proof.
  split; [apply flatten_tree_length |]. split.
  - rewrite <- (flatten_tree_length d keys). split.
    + apply length_zero_iff_nil.
    + intros ->. reflexivity.
  - intros k. rewrite flatten_tree_cons. reflexivity.
Qed.

(** ** Construction and dispatch *)

Section dispatch.
Context `{Datasketch}.
Import SimilarityHashing.

(** What a successful [__init__] has stored. *)
Lemma init_fields structure size w (enc : self) :
  __init__ structure size w = Ok enc ->
  structure_name enc = structure
  /\ num_hash enc = size
  /\ table_get structures structure = Some (structure_function enc)
  /\ ((structure = "weighted_set"%string
       /\ exists name dim,
            w = Some (OptStr name)
            /\ table_get weighted_set_options name = Some dim
            /\ weighted_set_option enc = Some dim
            /\ weighted_hash_gen enc = Some (WeightedMinHashGenerator dim size))
      \/ (structure <> "weighted_set"%string
          /\ weighted_set_option enc = None
          /\ weighted_hash_gen enc = None)).
Proof.
  unfold __init__.
  destruct (table_get structures structure) as [f |] eqn:Hf; [| discriminate].
  destruct (String.eqb_spec structure "weighted_set") as [-> | Hne].
  - destruct (weighted_set_options_recognized w)
      as [(_ & -> & name & dim & -> & Hget & -> & _) | (_ & [-> | Hnone])].
    + intros E; inversion E; subst; cbn.
      repeat (split; [reflexivity |]). left. split; [reflexivity |].
      exists name, dim. repeat (split; [reflexivity || exact Hget |]).
      reflexivity.
    + discriminate.
    + destruct (is_False _); [discriminate |]. rewrite Hnone. discriminate.
  - intros E; inversion E; subst; cbn.
    repeat (split; [reflexivity |]). right. repeat split. exact Hne.
Qed.

Lemma structures_method structure f :
  table_get structures structure = Some f ->
  (structure = "set"%string /\ f = method_set_hashing)
  \/ (structure = "sequence"%string /\ f = method_sequence_hashing)
  \/ (structure = "tree"%string /\ f = method_tree_hashing)
  \/ (structure = "weighted_set"%string /\ f = method_weighted_set_hashing).
Proof.
  unfold structures; cbn [table_get].
  repeat match goal with
  | |- context [String.eqb structure ?k] =>
      destruct (String.eqb_spec structure k) as [-> | ?]
  end; intros E; inversion E; tauto.
Qed.

(** X4.  An encoder that [__init__] returned has kept its arguments:
    the structure name, the size as [num_hash], the method of that name;
    for ['weighted_set'] the dimension of the option, one of 65536, 100
    and 10, and a generator made for that dimension and the size; for the
    other structures neither of the two weighted attributes. *)
Theorem init_records_configuration (structure : string) (size : Z)
    (w : option option_arg) (enc : self) :
  __init__ structure size w = Ok enc ->
  structure_name enc = structure
  /\ num_hash enc = size
  /\ table_get structures structure = Some (structure_function enc)
  /\ (structure_function enc = method_weighted_set_hashing
      <-> structure = "weighted_set"%string)
  /\ (structure = "weighted_set"%string ->
      exists dim,
        In dim [65536; 100; 10]
        /\ weighted_set_option enc = Some dim
        /\ weighted_hash_gen enc = Some (WeightedMinHashGenerator dim size))
  /\ (structure <> "weighted_set"%string ->
      weighted_set_option enc = None /\ weighted_hash_gen enc = None).
Proof.
  intros Hinit.
  destruct (init_fields structure size w enc Hinit)
    as (Hname & Hsize & Hf & Hw).
  split; [exact Hname |]. split; [exact Hsize |]. split; [exact Hf |].
  split; [| split].
  - destruct (structures_method _ _ Hf)
      as [(-> & ->) | [(-> & ->) | [(-> & ->) | (-> & ->)]]];
      split; intros E; try discriminate E; reflexivity.
  - intros ->. destruct Hw as [(_ & name & dim & _ & Hget & Hopt & Hgen)
                              | (Hne & _)]; [| contradiction].
    exists dim. split; [| split; assumption].
    unfold weighted_set_options in Hget; cbn [table_get] in Hget.
    repeat match type of Hget with
    | context [String.eqb name ?k] => destruct (String.eqb name k)
    end; inversion Hget; simpl; tauto.
  - intros Hne. destruct Hw as [(E & _) | (_ & Hopt & Hgen)];
      [contradiction | split; assumption].
Qed.

(** X5.  The two exceptions of the weighted case: with ['weighted_set']
    the value [False] raises "need to determine support for weighted
    hashing"; [True], an omitted option (the string ['None']) and every
    string that is none of the three names raise "unsupported option for
    weighted sets". *)
Theorem init_weighted_option_exceptions (size : Z) (w : option option_arg) :
  (w = Some (OptBool false) ->
   __init__ "weighted_set" size w = Raise NeedWeightedSupport)
  /\ (w <> Some (OptBool false) -> ~ recognized_option w ->
      __init__ "weighted_set" size w = Raise UnsupportedWeightedOption).
Proof.
  split.
  - intros ->. reflexivity.
  - intros Hnf Hnot. unfold __init__.
    cbn [table_get structures String.eqb Ascii.eqb Bool.eqb].
    destruct (weighted_set_options_recognized w)
      as [(Hrec & _) | (_ & [Hfalse | Hnone])]; [contradiction | |].
    + destruct w as [[name | [|]] |]; simpl in Hfalse;
        try discriminate Hfalse. now contradiction Hnf.
    + destruct (is_False _) eqn:Hfalse.
      * destruct w as [[name | [|]] |]; simpl in Hfalse;
          try discriminate Hfalse. now contradiction Hnf.
      * rewrite Hnone. reflexivity.
Qed.

(** X6.  [hash_data] of an encoder that [__init__] returned runs the
    method named by the structure the encoder was built for. *)
Theorem hash_data_dispatches (structure : string) (size : Z)
    (w : option option_arg) (enc : self) (data : pyval) :
  __init__ structure size w = Ok enc ->
  (structure = "set"%string ->
   hash_data enc data = (m ← set_hashing enc data; Ok (Sketch m)))
  /\ (structure = "sequence"%string ->
      hash_data enc data = (m ← sequence_hashing enc data; Ok (Sketch m)))
  /\ (structure = "tree"%string -> hash_data enc data = tree_hashing enc data)
  /\ (structure = "weighted_set"%string ->
      hash_data enc data
      = (v ← weighted_set_hashing enc data; Ok (WeightedSketch v))).
Proof.
  intros Hinit.
  destruct (init_fields structure size w enc Hinit) as (_ & _ & Hf & _).
  unfold hash_data.
  repeat split; intros ->; cbn in Hf; inversion Hf as [Hm]; reflexivity.
Qed.

(** X7.  An input of the wrong shape makes [hash_data] raise: a value
    that is not a [dict] has no [keys()] for the tree and the weighted-set
    encoders, and [None] and an integer cannot be iterated by the set and
    the sequence encoders. *)
Theorem hash_data_wrong_shape (structure : string) (size : Z)
    (w : option option_arg) (enc : self) (data : pyval) :
  __init__ structure size w = Ok enc ->
  (is_dict data = false ->
   structure = "tree"%string \/ structure = "weighted_set"%string ->
   hash_data enc data = Raise AttributeError)
  /\ (data = VNone \/ (exists n, data = VInt n) ->
      structure = "set"%string \/ structure = "sequence"%string ->
      hash_data enc data = Raise TypeError).
Proof.
  intros Hinit.
  destruct (init_fields structure size w enc Hinit) as (_ & _ & Hf & Hw).
  unfold hash_data. split.
  - intros Hshape [-> | ->]; cbn in Hf; inversion Hf as [Hm].
    + unfold tree_hashing. destruct data; try discriminate Hshape; reflexivity.
    + destruct Hw as [(_ & name & dim & _ & _ & Hopt & Hgen) | (Hne & _)];
        [| contradiction].
      unfold weighted_set_hashing. rewrite Hopt.
      destruct data; try discriminate Hshape; reflexivity.
  - intros Hdata [-> | ->]; cbn in Hf; inversion Hf as [Hm];
      destruct Hdata as [-> | (n & ->)]; reflexivity.
Qed.
End dispatch.

(** ** Sequences and trees at the edges *)

Section shapes.
Context `{Datasketch}.
Import SimilarityHashing.

Lemma combinations_two_short {A} (xs : list A) :
  (length xs < 2)%nat -> combinations xs 2 = [].
Proof.
  destruct xs as [|x [|y xs]]; simpl; intros Hlen; try reflexivity. lia.
Qed.

(** X8.  A sequence with fewer than two elements has no pair:
    [sequence_hashing] returns the [MinHash] as it was built, without any
    update, which is what [set_hashing] returns for an empty collection.
    All such sequences get the same sketch. *)
Theorem sequence_hashing_short (s : self) (data : pyval) (xs : list pyval) :
  py_iter data = Ok xs -> (length xs < 2)%nat ->
  sequence_hashing s data = Ok (MinHash (num_hash s))
  /\ sequence_hashing s data = set_hashing s (VList []).
Proof.
  intros Hiter Hlen. unfold sequence_hashing. rewrite Hiter; cbn.
  rewrite combinations_two_short by exact Hlen. split; reflexivity.
Qed.

Lemma tree_hashing_pairs (s : self) (k v : pyval) :
  tree_hashing s (VDict [(k, v)])
  = Ok (Sketch (set_hashing_loop (MinHash (num_hash s)) (tree_pairs [(k, v)]))).
Proof. rewrite tree_hashing_single_root. reflexivity. Qed.

(** X9.  A tree with one root and no leaf, as [{k: {}}], is not the
    empty mapping: [tree_hashing] returns a [MinHash], the one it built,
    without any update. *)
Theorem tree_hashing_without_leaf (s : self) (k v : pyval) :
  leaf_count [(k, v)] = 0%nat ->
  tree_hashing s (VDict [(k, v)]) = Ok (Sketch (MinHash (num_hash s)))
  /\ tree_hashing s (VDict [(k, v)]) <> Ok EmptyList.
Proof.
  intros Hleaf.
  assert (Hnone : flatten_tree [(k, v)] [] = []).
  { apply length_zero_iff_nil. now rewrite flatten_tree_length. }
  rewrite tree_hashing_pairs. unfold tree_pairs. rewrite Hnone.
  split; [reflexivity | discriminate].
Qed.

Lemma flatten_tree_chain (ks : list pyval) :
  forall k leaf keys,
    is_dict leaf = false ->
    flatten_tree [(k, chain ks leaf)] keys = [VTuple (keys ++ k :: ks ++ [leaf])].
Proof.
  induction ks as [|k' ks IH]; intros k leaf keys Hleaf;
    rewrite flatten_tree_cons, flatten_tree_nil, app_nil_r;
    unfold item_branches, flatten_step; cbn [chain].
  - destruct leaf; try discriminate Hleaf; reflexivity.
  - cbn [app]. rewrite IH by exact Hleaf. now rewrite <- app_assoc.
Qed.

(** X10.  A tree that is a single path [{k1: {k2: ... {kn: leaf}}}]
    has the one Branch [(k1, ..., kn, leaf)], and [tree_hashing] returns
    for it the sketch that [sequence_hashing] returns for that tuple. *)
Theorem tree_hashing_single_path (s : self) (k : pyval) (ks : list pyval)
    (leaf : pyval) :
  is_dict leaf = false ->
  flatten_tree [(k, chain ks leaf)] [] = [VTuple (k :: ks ++ [leaf])]
  /\ tree_hashing s (VDict [(k, chain ks leaf)])
     = (m ← sequence_hashing s (VTuple (k :: ks ++ [leaf])); Ok (Sketch m)).
Proof.
  intros Hleaf. split; [now apply flatten_tree_chain |].
  unfold tree_hashing; cbn [as_dict mbind result_bind dict_keys map length
                            Nat.eqb Nat.ltb Nat.leb].
  rewrite flatten_tree_chain by exact Hleaf.
  unfold sequence_hashing; cbn [py_iter mbind result_bind app flat_map
                                tuple_items].
  now rewrite app_nil_r.
Qed.

Lemma set_hashing_loop_app (m : MinHashT) (xs ys : list pyval) :
  set_hashing_loop m (xs ++ ys)
  = set_hashing_loop (set_hashing_loop m xs) ys.
Proof. unfold set_hashing_loop. apply fold_left_app. Qed.

Lemma tree_pairs_children (k : pyval) (d1 d2 : dict) :
  tree_pairs [(k, VDict (d1 ++ d2))]
  = tree_pairs [(k, VDict d1)] ++ tree_pairs [(k, VDict d2)].
Proof.
  unfold tree_pairs.
  rewrite !flatten_tree_cons, !flatten_tree_nil, !app_nil_r.
  unfold item_branches, flatten_step; cbn [app].
  now rewrite flatten_tree_app_items, flat_map_app.
Qed.

(** X11.  Children add pairs and take none away: for a root whose
    children are those of [d1] followed by those of [d2], the pairs given
    to [set_hashing] are the pairs of the tree with the children [d1]
    followed by the pairs of the tree with the children [d2], and the
    sketch is the sketch of the first tree updated with the pairs of the
    second. *)
Theorem tree_hashing_children (s : self) (k : pyval) (d1 d2 : dict)
    (m1 : MinHashT) :
  tree_hashing s (VDict [(k, VDict d1)]) = Ok (Sketch m1) ->
  tree_pairs [(k, VDict (d1 ++ d2))]
  = tree_pairs [(k, VDict d1)] ++ tree_pairs [(k, VDict d2)]
  /\ tree_hashing s (VDict [(k, VDict (d1 ++ d2))])
     = Ok (Sketch (fold_left update
                     (map Token (tree_pairs [(k, VDict d2)])) m1)).
Proof.
  intros Hfirst. split; [apply tree_pairs_children |].
  rewrite tree_hashing_pairs in Hfirst. inversion Hfirst as [Hm1].
  rewrite tree_hashing_pairs, tree_pairs_children, set_hashing_loop_app.
  now rewrite <- set_hashing_loop_tokens.
Qed.
End shapes.

(** ** The weighted vector: contents and order of the items *)

Section vector.
Context `{Datasketch}.
Import SimilarityHashing.

Lemma last_write_absent (l : list (Z * cell)) (c : cell) (j : Z) :
  ~ In j (map fst l) -> last_write_from c l j = c.
Proof.
  unfold last_write_from. revert c.
  induction l as [|[i x] l IH]; intros c Hj; [reflexivity |].
  cbn [fold_left fst snd]. cbn [map fst In] in Hj.
  destruct (Z.eqb_spec i j) as [-> | _]; [tauto |].
  apply IH. tauto.
Qed.

Lemma last_write_present (l : list (Z * cell)) (c x : cell) (j : Z) :
  List.NoDup (map fst l) -> In (j, x) l -> last_write_from c l j = x.
Proof.
  revert c. induction l as [|[i y] l IH]; intros c Hnd Hin; [contradiction |].
  cbn [map fst] in Hnd. apply List.NoDup_cons_iff in Hnd as [Hfresh Hnd].
  unfold last_write_from; cbn [fold_left fst snd].
  destruct Hin as [E | Hin].
  - inversion E; subst. rewrite Z.eqb_refl.
    now apply last_write_absent.
  - destruct (Z.eqb_spec i j) as [-> | _].
    + exfalso. apply Hfresh. apply in_map_iff. now exists (j, x).
    + now apply IH.
Qed.

Lemma traverse_cons_ok {A B} (f : A -> result B) x l r :
  traverse f (x :: l) = Ok r ->
  exists y ys, f x = Ok y /\ traverse f l = Ok ys /\ r = y :: ys.
Proof.
  cbn [traverse]. destruct (f x) as [y | e]; [| discriminate].
  destruct (traverse f l) as [ys | e]; [| discriminate].
  intros E; inversion E. now exists y, ys.
Qed.

Lemma traverse_cons_build {A B} (f : A -> result B) x l y ys :
  f x = Ok y -> traverse f l = Ok ys -> traverse f (x :: l) = Ok (y :: ys).
Proof. intros Hx Hl. cbn [traverse]. now rewrite Hx, Hl. Qed.

(** Items in another order parse to the entries in that order. *)
Lemma entries_permutation (d d' : dict) :
  Permutation d d' ->
  forall ind ws,
    traverse py_int (dict_keys d) = Ok ind ->
    traverse as_cell (dict_values d) = Ok ws ->
    exists ind' ws',
      traverse py_int (dict_keys d') = Ok ind'
      /\ traverse as_cell (dict_values d') = Ok ws'
      /\ Permutation (combine ind ws) (combine ind' ws').
Proof.
  induction 1 as [| kv d d' _ IH | kv1 kv2 d | d d' d'' _ IH1 _ IH2];
    intros ind ws Hind Hws.
  - exists ind, ws. now repeat split.
  - apply traverse_cons_ok in Hind as (i & ind0 & Hi & Hind0 & ->).
    apply traverse_cons_ok in Hws as (x & ws0 & Hx & Hws0 & ->).
    destruct (IH ind0 ws0 Hind0 Hws0) as (ind' & ws' & Hind' & Hws' & Hp).
    exists (i :: ind'), (x :: ws'). split; [| split].
    + now apply traverse_cons_build.
    + now apply traverse_cons_build.
    + cbn [combine]. now constructor.
  - apply traverse_cons_ok in Hind as (i2 & ind1 & Hi2 & Hind1 & ->).
    apply traverse_cons_ok in Hind1 as (i1 & ind0 & Hi1 & Hind0 & ->).
    apply traverse_cons_ok in Hws as (x2 & ws1 & Hx2 & Hws1 & ->).
    apply traverse_cons_ok in Hws1 as (x1 & ws0 & Hx1 & Hws0 & ->).
    exists (i1 :: i2 :: ind0), (x1 :: x2 :: ws0). split; [| split].
    + apply traverse_cons_build; [exact Hi1 |]. now apply traverse_cons_build.
    + apply traverse_cons_build; [exact Hx1 |]. now apply traverse_cons_build.
    + cbn [combine]. apply perm_swap.
  - destruct (IH1 ind ws Hind Hws) as (ind' & ws' & Hind' & Hws' & Hp1).
    destruct (IH2 ind' ws' Hind' Hws') as (ind'' & ws'' & Hind'' & Hws'' & Hp2).
    exists ind'', ws''. split; [exact Hind'' | split; [exact Hws'' |]].
    eapply perm_trans; eassumption.
Qed.

Lemma map_fst_combine {A B} (l : list A) (l' : list B) :
  length l = length l' -> map fst (combine l l') = l.
Proof.
  revert l'. induction l as [|a l IH]; intros [|b l'] Hlen;
    try discriminate; [reflexivity |].
  cbn [combine map fst]. f_equal. apply IH. now inversion Hlen.
Qed.

Lemma map_fst_wrapped n (ivs : list (Z * cell)) :
  map fst (wrapped n ivs) = map (wrap_index n) (map fst ivs).
Proof. unfold wrapped. rewrite !map_map. reflexivity. Qed.

Lemma entries_lengths (d : dict) ind ws :
  traverse py_int (dict_keys d) = Ok ind ->
  traverse as_cell (dict_values d) = Ok ws ->
  length ind = length ws.
Proof.
  intros Hind Hws. apply traverse_length in Hind, Hws.
  rewrite Hind, Hws. apply keys_values_length.
Qed.

(** The vector of a weighted encoder, by its cells. *)
Lemma weighted_vector (s : self) dim gen (d : dict) ind ws :
  weighted_set_option s = Some dim -> weighted_hash_gen s = Some gen ->
  0 <= dim < 2 ^ 63 ->
  traverse py_int (dict_keys d) = Ok ind ->
  traverse as_cell (dict_values d) = Ok ws ->
  Forall (fun i => - dim <= i < dim) ind ->
  exists vector : list cell,
    weighted_set_hashing s (VDict d) = Ok (minhash gen vector)
    /\ length vector = Z.to_nat dim
    /\ (forall j, 0 <= j < dim ->
          vector !! Z.to_nat j
          = Some (last_write (wrapped dim (combine ind ws)) j)).
Proof.
  intros Hopt Hgen Hdim Hind Hws Hrange.
  destruct (put_zeros_accepts dim ind (dict_values d) ws Hdim Hws Hrange)
    as (vector & Hput & Hlen & Hcells).
  exists vector. split; [| split; assumption].
  rewrite (weighted_set_hashing_steps s dim gen d Hopt Hgen).
  rewrite Hind; cbn [mbind result_bind]. now rewrite Hput.
Qed.
Lemma last_write_permutation (l l' : list (Z * cell)) (c : cell) (j : Z) :
  List.NoDup (map fst l) -> Permutation l l' ->
  last_write_from c l j = last_write_from c l' j.
Proof.
  intros Hnd Hp.
  assert (Hnd' : List.NoDup (map fst l')).
  { eapply Permutation_NoDup; [| exact Hnd]. now apply Permutation_map. }
  destruct (in_dec Z.eq_dec j (map fst l)) as [Hin | Hout].
  - apply in_map_iff in Hin as ([i x] & E & Hin). simpl in E. subst i.
    rewrite (last_write_present l c x j Hnd Hin).
    symmetry. apply last_write_present; [exact Hnd' |].
    eapply Permutation_in; eassumption.
  - rewrite (last_write_absent l c j Hout).
    symmetry. apply last_write_absent. intros Hin. apply Hout.
    eapply Permutation_in; [| exact Hin].
    apply Permutation_sym. now apply Permutation_map.
Qed.

(** X12.  The cells of the vector the weighted encoder gives to
    [minhash]: a cell that no key addresses is zero, and when no two keys
    address one cell, the cell of every key holds the weight of that
    key. *)
Theorem weighted_vector_cells (s : self) (dim : Z) (gen : GeneratorT)
    (d : dict) (ind : list Z) (ws : list cell) :
  weighted_set_option s = Some dim -> weighted_hash_gen s = Some gen ->
  0 <= dim < 2 ^ 63 ->
  traverse py_int (dict_keys d) = Ok ind ->
  traverse as_cell (dict_values d) = Ok ws ->
  Forall (fun i => - dim <= i < dim) ind ->
  exists vector : list cell,
    weighted_set_hashing s (VDict d) = Ok (minhash gen vector)
    /\ length vector = Z.to_nat dim
    /\ (forall j, 0 <= j < dim -> ~ In j (map (wrap_index dim) ind) ->
          vector !! Z.to_nat j = Some cell_zero)
    /\ (List.NoDup (map (wrap_index dim) ind) ->
        forall i x, In (i, x) (combine ind ws) ->
          vector !! Z.to_nat (wrap_index dim i) = Some x).
Proof.
  intros Hopt Hgen Hdim Hind Hws Hrange.
  destruct (weighted_vector s dim gen d ind ws Hopt Hgen Hdim Hind Hws Hrange)
    as (vector & Hcall & Hlen & Hcells).
  pose proof (entries_lengths d ind ws Hind Hws) as Hlens.
  assert (Hfst : map fst (wrapped dim (combine ind ws))
                 = map (wrap_index dim) ind).
  { now rewrite map_fst_wrapped, map_fst_combine. }
  exists vector. split; [exact Hcall |]. split; [exact Hlen |]. split.
  - intros j Hj Hout. rewrite (Hcells j Hj). f_equal.
    apply last_write_absent. now rewrite Hfst.
  - intros Hnd i x Hin.
    assert (Hi : - dim <= i < dim).
    { rewrite List.Forall_forall in Hrange. apply Hrange.
      eapply in_combine_l; exact Hin. }
    rewrite (Hcells _ (wrap_index_range dim i Hi)). f_equal.
    apply last_write_present; [now rewrite Hfst |].
    unfold wrapped. apply in_map_iff. now exists (i, x).
Qed.

(** X13.  The order of the items does not matter when no two keys
    address one cell: a [dict] with the same items in another order gets
    the same vector, hence the same result. *)
Theorem weighted_set_hashing_any_order (s : self) (dim : Z)
    (gen : GeneratorT) (d d' : dict) (ind : list Z) (ws : list cell) :
  weighted_set_option s = Some dim -> weighted_hash_gen s = Some gen ->
  0 <= dim < 2 ^ 63 ->
  traverse py_int (dict_keys d) = Ok ind ->
  traverse as_cell (dict_values d) = Ok ws ->
  Forall (fun i => - dim <= i < dim) ind ->
  List.NoDup (map (wrap_index dim) ind) ->
  Permutation d d' ->
  weighted_set_hashing s (VDict d') = weighted_set_hashing s (VDict d).
Proof.
  intros Hopt Hgen Hdim Hind Hws Hrange Hnd Hperm.
  destruct (entries_permutation d d' Hperm ind ws Hind Hws)
    as (ind' & ws' & Hind' & Hws' & Hp).
  pose proof (entries_lengths d ind ws Hind Hws) as Hlens.
  pose proof (entries_lengths d' ind' ws' Hind' Hws') as Hlens'.
  assert (Hrange' : Forall (fun i => - dim <= i < dim) ind').
  { apply List.Forall_forall. intros i Hi.
    rewrite <- (map_fst_combine ind' ws' Hlens') in Hi.
    apply (Permutation_in _ (Permutation_sym (Permutation_map fst Hp))) in Hi.
    rewrite (map_fst_combine ind ws Hlens) in Hi.
    rewrite List.Forall_forall in Hrange. now apply Hrange. }
  destruct (weighted_vector s dim gen d ind ws Hopt Hgen Hdim Hind Hws Hrange)
    as (v & -> & Hlen & Hcells).
  destruct (weighted_vector s dim gen d' ind' ws' Hopt Hgen Hdim Hind' Hws'
              Hrange') as (v' & -> & Hlen' & Hcells').
  do 2 f_equal. apply list_eq. intros n.
  destruct (Nat.lt_ge_cases n (Z.to_nat dim)) as [Hn | Hn].
  - specialize (Hcells (Z.of_nat n)). specialize (Hcells' (Z.of_nat n)).
    rewrite Nat2Z.id in Hcells, Hcells'.
    rewrite Hcells, Hcells' by lia. f_equal. unfold last_write.
    symmetry. apply last_write_permutation.
    + now rewrite map_fst_wrapped, map_fst_combine.
    + unfold wrapped. now apply Permutation_map.
  - rewrite !lookup_ge_None_2 by lia. reflexivity.
Qed.
End vector.

(** ** Which exception a weighted set raises *)

Section precedence.
Context `{Datasketch}.
Import SimilarityHashing.

Lemma traverse_first_raise {A B} (f : A -> result B) (l1 l2 : list A) x e :
  Forall (fun y => exists z, f y = Ok z) l1 -> f x = Raise e ->
  traverse f (l1 ++ x :: l2) = Raise e.
Proof.
  intros Hok Hx. induction Hok as [|y l1 (z & Hy) _ IH]; cbn [app traverse].
  - now rewrite Hx.
  - now rewrite Hy, IH.
Qed.

(** X14.  All keys are parsed before the vector is written to: when
    [int] rejects a key, the call raises what [int] raised for the first
    such key, whatever the indices of the keys before it are, in range or
    not. *)
Theorem weighted_set_hashing_parses_first (s : self) (dim : Z)
    (d1 d2 : dict) (k v : pyval) (e : pyexn) :
  weighted_set_option s = Some dim ->
  Forall (fun kv => exists i, py_int kv.1 = Ok i) d1 ->
  py_int k = Raise e ->
  weighted_set_hashing s (VDict (d1 ++ (k, v) :: d2)) = Raise e.
Proof.
  intros Hopt Hparsed Hk. unfold weighted_set_hashing. rewrite Hopt.
  cbn [attr as_dict mbind result_bind].
  unfold dict_keys. rewrite map_app; cbn [map fst].
  rewrite (traverse_first_raise py_int (map fst d1) (map fst d2) k e);
    [reflexivity | | exact Hk].
  apply Forall_map. exact Hparsed.
Qed.
End precedence.

(** ** The further statements on inputs *)

Section further_examples.
Import SimilarityHashing Reference.

Lemma init_records_configuration_witness :
  __init__ "weighted_set" 64 (Some (OptStr "sfc")) = Ok sfc_encoder
  /\ num_hash sfc_encoder = 64.
Proof.
  split; [reflexivity |].
  exact (proj1 (proj2 (init_records_configuration "weighted_set" 64
                         (Some (OptStr "sfc")) sfc_encoder eq_refl))).
Defined.

Lemma init_weighted_option_exceptions_witness :
  Some (OptBool true) <> Some (OptBool false)
  /\ ~ recognized_option (Some (OptBool true))
  /\ __init__ "weighted_set" 64 (Some (OptBool true))
     = Raise UnsupportedWeightedOption.
Proof.
  assert (Hnf : Some (OptBool true) <> Some (OptBool false)) by discriminate.
  assert (Hnot : ~ recognized_option (Some (OptBool true)))
    by (intros (name & _ & E); discriminate E).
  split; [exact Hnf |]. split; [exact Hnot |].
  exact (proj2 (init_weighted_option_exceptions 64 (Some (OptBool true)))
           Hnf Hnot).
Defined.

Lemma hash_data_dispatches_witness :
  __init__ "tree" 4096 None = Ok tree_encoder
  /\ hash_data tree_encoder (VDict demo_tree)
     = tree_hashing tree_encoder (VDict demo_tree).
Proof.
  split; [reflexivity |].
  exact (proj1 (proj2 (proj2
           (hash_data_dispatches "tree" 4096 None tree_encoder
              (VDict demo_tree) eq_refl))) eq_refl).
Defined.

Lemma hash_data_wrong_shape_witness :
  __init__ "tree" 4096 None = Ok tree_encoder
  /\ is_dict demo_sequence = false
  /\ hash_data tree_encoder demo_sequence = Raise AttributeError.
Proof.
  split; [reflexivity |]. split; [reflexivity |].
  exact (proj1 (hash_data_wrong_shape "tree" 4096 None tree_encoder
                  demo_sequence eq_refl) eq_refl (or_introl eq_refl)).
Defined.

Lemma sequence_hashing_short_witness :
  py_iter (VTuple [VInt 1]) = Ok [VInt 1]
  /\ (length [VInt 1] < 2)%nat
  /\ sequence_hashing tree_encoder (VTuple [VInt 1]) = Ok (MinHash 4096).
Proof.
  assert (Hlen : (length [VInt 1] < 2)%nat) by (simpl; lia).
  split; [reflexivity |]. split; [exact Hlen |].
  exact (proj1 (sequence_hashing_short tree_encoder (VTuple [VInt 1])
                  [VInt 1] eq_refl Hlen)).
Defined.

Lemma tree_hashing_without_leaf_witness :
  leaf_count [(VInt 1, VDict [])] = 0%nat
  /\ tree_hashing tree_encoder (VDict [(VInt 1, VDict [])])
     = Ok (Sketch (MinHash 4096)).
Proof.
  split; [reflexivity |].
  exact (proj1 (tree_hashing_without_leaf tree_encoder (VInt 1) (VDict [])
                  eq_refl)).
Defined.

Lemma tree_hashing_single_path_witness :
  is_dict (VInt 8) = false
  /\ flatten_tree [(VInt 4, chain [VInt 5; VInt 7] (VInt 8))] []
     = [VTuple [VInt 4; VInt 5; VInt 7; VInt 8]].
Proof.
  split; [reflexivity |].
  exact (proj1 (tree_hashing_single_path tree_encoder (VInt 4)
                  [VInt 5; VInt 7] (VInt 8) eq_refl)).
Defined.

Lemma tree_hashing_children_witness :
  tree_hashing tree_encoder (VDict [(VInt 1, VDict [(VInt 9, VInt 10)])])
  = Ok (Sketch (4096, [Token (VTuple [VInt 1; VInt 9])]
                        ++ [Token (VTuple [VInt 1; VInt 10])]
                        ++ [Token (VTuple [VInt 9; VInt 10])]))
  /\ tree_pairs [(VInt 1, VDict ([(VInt 9, VInt 10)]
                                   ++ [(VInt 2, VDict [(VInt 3, VInt 6)])]))]
     = tree_pairs [(VInt 1, VDict [(VInt 9, VInt 10)])]
       ++ tree_pairs [(VInt 1, VDict [(VInt 2, VDict [(VInt 3, VInt 6)])])].
Proof.
  split; [reflexivity |].
  exact (proj1 (tree_hashing_children tree_encoder (VInt 1)
                  [(VInt 9, VInt 10)] [(VInt 2, VDict [(VInt 3, VInt 6)])]
                  _ eq_refl)).
Defined.

Lemma demo_weighted_in_signed_range :
  Forall (fun i => - 10 <= i < 10) [1; 2; 4].
Proof. repeat constructor; lia. Defined.

Lemma demo_weighted_distinct_cells :
  List.NoDup (map (wrap_index 10) [1; 2; 4]).
Proof.
  repeat (constructor; [simpl; intuition discriminate |]). constructor.
Defined.

Lemma demo_weighted_reordered :
  Permutation demo_weighted_set reordered_weighted_set.
Proof.
  unfold demo_weighted_set, reordered_weighted_set.
  eapply perm_trans; [apply perm_skip; apply perm_swap | apply perm_swap].
Defined.

Lemma weighted_vector_cells_witness :
  weighted_set_option sfc_encoder = Some 10
  /\ traverse py_int (dict_keys demo_weighted_set) = Ok [1; 2; 4]
  /\ traverse as_cell (dict_values demo_weighted_set) = Ok [1; 2; 3]
  /\ exists vector : list cell,
       weighted_set_hashing sfc_encoder (VDict demo_weighted_set)
       = Ok (minhash (10, 64) vector)
       /\ length vector = Z.to_nat 10
       /\ (forall j, 0 <= j < 10 -> ~ In j (map (wrap_index 10) [1; 2; 4]) ->
             vector !! Z.to_nat j = Some cell_zero)
       /\ (List.NoDup (map (wrap_index 10) [1; 2; 4]) ->
           forall i x, In (i, x) (combine [1; 2; 4] [1; 2; 3]) ->
             vector !! Z.to_nat (wrap_index 10 i) = Some x).
Proof.
  split; [reflexivity |]. split; [reflexivity |]. split; [reflexivity |].
  assert (Hdim : 0 <= 10 < 2 ^ 63) by lia.
  exact (weighted_vector_cells sfc_encoder 10 (10, 64) demo_weighted_set
           [1; 2; 4] [1; 2; 3] eq_refl eq_refl Hdim eq_refl eq_refl
           demo_weighted_in_signed_range).
Defined.

Lemma weighted_set_hashing_any_order_witness :
  Permutation demo_weighted_set reordered_weighted_set
  /\ List.NoDup (map (wrap_index 10) [1; 2; 4])
  /\ weighted_set_hashing sfc_encoder (VDict reordered_weighted_set)
     = weighted_set_hashing sfc_encoder (VDict demo_weighted_set).
Proof.
  split; [exact demo_weighted_reordered |].
  split; [exact demo_weighted_distinct_cells |].
  assert (Hdim : 0 <= 10 < 2 ^ 63) by lia.
  exact (weighted_set_hashing_any_order sfc_encoder 10 (10, 64)
           demo_weighted_set reordered_weighted_set [1; 2; 4] [1; 2; 3]
           eq_refl eq_refl Hdim eq_refl eq_refl demo_weighted_in_signed_range
           demo_weighted_distinct_cells demo_weighted_reordered).
Defined.

Lemma out_of_range_key_parses :
  Forall (fun kv : pyval * pyval => exists i, py_int kv.1 = Ok i)
    [(VStr "10", VInt 1)].
Proof. repeat constructor. exists 10. reflexivity. Defined.

Lemma weighted_set_hashing_parses_first_witness :
  weighted_set_option sfc_encoder = Some 10
  /\ py_int (VStr "x") = Raise ValueError
  /\ weighted_set_hashing sfc_encoder
       (VDict ([(VStr "10", VInt 1)] ++ (VStr "x", VInt 2) :: []))
     = Raise ValueError.
Proof.
  split; [reflexivity |]. split; [reflexivity |].
  exact (weighted_set_hashing_parses_first sfc_encoder 10
           [(VStr "10", VInt 1)] [] (VStr "x") (VInt 2) ValueError
           eq_refl out_of_range_key_parses eq_refl).
Defined.
End further_examples.
